(** * navigator-auth: ADFS authorization-code flow and tenant API-token backend

    A shallow embedding of [navigator_auth/backends/adfs.py] and
    [navigator_auth/backends/token.py], with the properties of the
    specification stated and settled against it.

    Conventions.
    - A Python [str] is represented by the byte string of its UTF-8 encoding
      (a [string] of the Standard Library); [s.encode()] and the decoding of
      ASCII [bytes] are therefore the identity.
    - A Python exception is a value of an error type; a function that may
      raise returns a sum.
    - Collaborators that live outside the two modules (the JWT library, the
      session store, the base classes) are fields of an interface record. *)

From Stdlib Require Import Ascii.
From stdpp Require Import base strings list gmap.

#[local] Arguments String.append !_ _ / : simpl nomatch.

(** ** Python string primitives *)

Module Py.

Definition ascii_eqb (a b : ascii) : bool := bool_decide (a = b).

(** [c in s] for a one-character [c]. *)
Fixpoint contains (c : ascii) (s : string) : bool :=
  match s with
  | "" => false
  | String x r => ascii_eqb x c || contains c r
  end.

(** [s.replace(a, b)] for one-character [a] and [b]. *)
Fixpoint replace (a b : ascii) (s : string) : string :=
  match s with
  | "" => ""
  | String x r => String (if ascii_eqb x a then b else x) (replace a b r)
  end.

(** [sep.join(l)]. *)
Fixpoint join (sep : string) (l : list string) : string :=
  match l with
  | [] => ""
  | [x] => x
  | x :: r => x +:+ sep +:+ join sep r
  end.

(** [s.split(sep)] for a one-character separator: every occurrence splits. *)
Fixpoint split (sep : ascii) (s : string) : list string :=
  match s with
  | "" => [""]
  | String x r =>
      if ascii_eqb x sep then "" :: split sep r
      else match split sep r with
           | h :: t => String x h :: t
           | [] => [String x ""]
           end
  end.

(** [s.split(sep, 1)]: only the first occurrence splits. *)
Fixpoint split1 (sep : ascii) (s : string) : list string :=
  match s with
  | "" => [""]
  | String x r =>
      if ascii_eqb x sep then [""; r]
      else match split1 sep r with
           | h :: t => String x h :: t
           | [] => [String x ""]
           end
  end.

(** White space as [str.isspace] sees it, on the UTF-8 bytes: the ASCII
    white space and separators, then U+0085, U+00A0, U+1680, U+2000-200A,
    U+2028, U+2029, U+202F, U+205F and U+3000. *)
Definition ascii_space (c : ascii) : bool :=
  match c with
  | "009" | "010" | "011" | "012" | "013"
  | "028" | "029" | "030" | "031" | " " => true
  | _ => false
  end%char.

Definition one_of (c : ascii) (l : list ascii) : bool :=
  existsb (ascii_eqb c) l.

(** Two-byte marks, tested from the last byte: C2 85 and C2 A0. *)
Definition space2 (a b : ascii) : bool :=
  one_of b ["133"; "160"]%char && ascii_eqb a "194".

(** Three-byte marks: E1 9A 80, E2 80 80-8A, E2 80 A8, E2 80 A9,
    E2 80 AF, E2 81 9F and E3 80 80. *)
Definition space3 (a b c : ascii) : bool :=
  ascii_eqb c "128" && ascii_eqb b "154" && ascii_eqb a "225"
  || one_of c ["128"; "129"; "130"; "131"; "132"; "133"; "134"; "135";
               "136"; "137"; "138"; "168"; "169"; "175"]%char
     && ascii_eqb b "128" && ascii_eqb a "226"
  || ascii_eqb c "159" && ascii_eqb b "129" && ascii_eqb a "226"
  || ascii_eqb c "128" && ascii_eqb b "128" && ascii_eqb a "227".

(** [s.lstrip()]. *)
Fixpoint lstrip (s : string) : string :=
  match s with
  | "" => ""
  | String a r =>
      if ascii_space a then lstrip r
      else match r with
           | String b r2 =>
               if space2 a b then lstrip r2
               else match r2 with
                    | String c r3 => if space3 a b c then lstrip r3 else s
                    | "" => s
                    end
           | "" => s
           end
  end.

(** [lstrip] on the reversed string: the multi-byte marks are met last
    byte first. *)
Fixpoint lstrip_rev (s : string) : string :=
  match s with
  | "" => ""
  | String a r =>
      if ascii_space a then lstrip_rev r
      else match r with
           | String b r2 =>
               if space2 b a then lstrip_rev r2
               else match r2 with
                    | String c r3 => if space3 c b a then lstrip_rev r3 else s
                    | "" => s
                    end
           | "" => s
           end
  end.

Definition rstrip (s : string) : string :=
  String.rev (lstrip_rev (String.rev s)).

(** [s.strip()]. *)
Definition strip (s : string) : string := rstrip (lstrip s).

(** [s[n]], with a filler where Python would raise [IndexError]; the
    callers index fixed tables within range. *)
Fixpoint nth_char (n : nat) (s : string) : ascii :=
  match s, n with
  | "", _ => "?"%char
  | String c _, 0 => c
  | String _ r, S m => nth_char m r
  end.

(** Occurrences of a character. *)
Fixpoint count (c : ascii) (s : string) : nat :=
  match s with
  | "" => 0
  | String x r => (if ascii_eqb x c then 1 else 0) + count c r
  end.


Fixpoint all_chars (p : ascii → bool) (s : string) : bool :=
  match s with
  | "" => true
  | String c r => p c && all_chars p r
  end.


(** Truth value of a [str]: empty is false. *)
Definition truthy (s : string) : bool :=
  match s with "" => false | _ => true end.

End Py.

(** ** URL-safe base64 ([base64.urlsafe_b64encode]) *)

Module Base64.

(** Six bits, most significant first. *)
Inductive sextet : Type :=
  Sx (b5 b4 b3 b2 b1 b0 : bool).

Definition alphabet : string :=
  "ABCDEFGHIJKLMNOPQRSTUVWXYZabcdefghijklmnopqrstuvwxyz0123456789-_".

Definition bit (b : bool) (w : nat) : nat := if b then w else 0.

Definition sextet_index (x : sextet) : nat :=
  match x with
  | Sx b5 b4 b3 b2 b1 b0 =>
      bit b5 32 + bit b4 16 + bit b3 8 + bit b2 4 + bit b1 2 + bit b0 1
  end.

Definition sextet_of_index (n : nat) : sextet :=
  Sx (Nat.testbit n 5) (Nat.testbit n 4) (Nat.testbit n 3)
     (Nat.testbit n 2) (Nat.testbit n 1) (Nat.testbit n 0).

Definition char_of_sextet (x : sextet) : ascii :=
  Py.nth_char (sextet_index x) alphabet.

Fixpoint index_of (c : ascii) (s : string) : option nat :=
  match s with
  | "" => None
  | String x r => if Py.ascii_eqb x c then Some 0 else S <$> index_of c r
  end.

Definition sextet_of_char (c : ascii) : option sextet :=
  sextet_of_index <$> index_of c alphabet.

Definition pad : ascii := "="%char.

(** Three bytes are four sextets; one or two trailing bytes are padded
    with zero bits and [=]. An [ascii] lists its bits least significant
    first. *)
Definition enc3 (a b c : ascii) : string :=
  match a, b, c with
  | Ascii a0 a1 a2 a3 a4 a5 a6 a7,
    Ascii b0 b1 b2 b3 b4 b5 b6 b7,
    Ascii c0 c1 c2 c3 c4 c5 c6 c7 =>
      String (char_of_sextet (Sx a7 a6 a5 a4 a3 a2))
     (String (char_of_sextet (Sx a1 a0 b7 b6 b5 b4))
     (String (char_of_sextet (Sx b3 b2 b1 b0 c7 c6))
     (String (char_of_sextet (Sx c5 c4 c3 c2 c1 c0)) "")))
  end.

Definition enc2 (a b : ascii) : string :=
  match a, b with
  | Ascii a0 a1 a2 a3 a4 a5 a6 a7,
    Ascii b0 b1 b2 b3 b4 b5 b6 b7 =>
      String (char_of_sextet (Sx a7 a6 a5 a4 a3 a2))
     (String (char_of_sextet (Sx a1 a0 b7 b6 b5 b4))
     (String (char_of_sextet (Sx b3 b2 b1 b0 false false))
     (String pad "")))
  end.

Definition enc1 (a : ascii) : string :=
  match a with
  | Ascii a0 a1 a2 a3 a4 a5 a6 a7 =>
      String (char_of_sextet (Sx a7 a6 a5 a4 a3 a2))
     (String (char_of_sextet (Sx a1 a0 false false false false))
     (String pad (String pad "")))
  end.

Fixpoint urlsafe_b64encode (s : string) : string :=
  match s with
  | "" => ""
  | String a "" => enc1 a
  | String a (String b "") => enc2 a b
  | String a (String b (String c r)) => enc3 a b c +:+ urlsafe_b64encode r
  end.

(** The reading direction, used to state what an encoded value decodes
    to: a strict decoder of padded URL-safe base64. *)
Definition byte1 (x y : sextet) : ascii :=
  match x, y with
  | Sx a7 a6 a5 a4 a3 a2, Sx a1 a0 _ _ _ _ => Ascii a0 a1 a2 a3 a4 a5 a6 a7
  end.

Definition byte2 (y z : sextet) : ascii :=
  match y, z with
  | Sx _ _ b7 b6 b5 b4, Sx b3 b2 b1 b0 _ _ => Ascii b0 b1 b2 b3 b4 b5 b6 b7
  end.

Definition byte3 (z w : sextet) : ascii :=
  match z, w with
  | Sx _ _ _ _ c7 c6, Sx c5 c4 c3 c2 c1 c0 => Ascii c0 c1 c2 c3 c4 c5 c6 c7
  end.

Definition dec_group (c1 c2 c3 c4 : ascii) : option string :=
  x ← sextet_of_char c1;
  y ← sextet_of_char c2;
  if Py.ascii_eqb c3 pad then
    if Py.ascii_eqb c4 pad then Some (String (byte1 x y) "") else None
  else
    z ← sextet_of_char c3;
    if Py.ascii_eqb c4 pad then
      Some (String (byte1 x y) (String (byte2 y z) ""))
    else
      w ← sextet_of_char c4;
      Some (String (byte1 x y) (String (byte2 y z) (String (byte3 z w) ""))).

Definition is_padded (c3 c4 : ascii) : bool :=
  Py.ascii_eqb c3 pad || Py.ascii_eqb c4 pad.

Fixpoint urlsafe_b64decode (s : string) : option string :=
  match s with
  | "" => Some ""
  | String c1 (String c2 (String c3 (String c4 r))) =>
      g ← dec_group c1 c2 c3 c4;
      if is_padded c3 c4 then
        match r with "" => Some g | _ => None end
      else
        t ← urlsafe_b64decode r; Some (g +:+ t)
  | _ => None
  end.

End Base64.

(** ** Query strings ([urllib.parse.urlencode], reached as
    [requests.compat.urlencode]) *)

Module Url.

Definition between (lo hi : nat) (c : ascii) : bool :=
  (lo <=? nat_of_ascii c)%nat && (nat_of_ascii c <=? hi)%nat.

(** The characters [quote] never escapes: letters, digits and [_.-~]. *)
Definition always_safe (c : ascii) : bool :=
  between 65 90 c || between 97 122 c || between 48 57 c
  || Py.contains c "_.-~".

Definition hex_digits : string := "0123456789ABCDEF".

(** ['%{:02X}'.format(byte)]. *)
Definition escape (c : ascii) (rest : string) : string :=
  String "%" (String (Py.nth_char (nat_of_ascii c / 16) hex_digits)
             (String (Py.nth_char (nat_of_ascii c mod 16) hex_digits) rest)).

(** [quote(s, safe)]: every byte outside the safe sets becomes [%XX]. *)
Fixpoint quote (safe : string) (s : string) : string :=
  match s with
  | "" => ""
  | String c r =>
      if always_safe c || Py.contains c safe then String c (quote safe r)
      else escape c (quote safe r)
  end.

(** [quote_plus(s, safe='')]. *)
Definition quote_plus (s : string) : string :=
  if Py.contains " " s then Py.replace " " "+" (quote " " s)
  else quote "" s.

(** [k + '=' + v] of one item, both quoted. *)
Definition pair_text (kv : string * string) : string :=
  quote_plus kv.1 +:+ "=" +:+ quote_plus kv.2.

(** [urlencode(query)] for a dict whose values are already [str]; the
    dict is given as its items in insertion order. *)
Definition urlencode (query : list (string * string)) : string :=
  Py.join "&" (pair_text <$> query).

(** What [quote_plus] writes for one byte, and for a string. *)
Definition enc_char (c : ascii) : string :=
  if Py.ascii_eqb c " " then "+"
  else if always_safe c then String c "" else escape c "".

Fixpoint enc (s : string) : string :=
  match s with
  | "" => ""
  | String c r => enc_char c +:+ enc r
  end.

(** Reading a query string back ([parse_qsl] with blank values kept), used
    to state which parameters a URL carries. *)
Definition hex_val (c : ascii) : option nat :=
  if between 48 57 c then Some (nat_of_ascii c - 48)
  else if between 65 70 c then Some (nat_of_ascii c - 55)
  else if between 97 102 c then Some (nat_of_ascii c - 87)
  else None.

Fixpoint unquote (s : string) : string :=
  match s with
  | "" => ""
  | String c r =>
      if Py.ascii_eqb c "%" then
        match r with
        | String h (String l r2) =>
            match hex_val h, hex_val l with
            | Some x, Some y => String (ascii_of_nat (16 * x + y)) (unquote r2)
            | _, _ => String c (unquote r)
            end
        | _ => String c (unquote r)
        end
      else String c (unquote r)
  end.

Definition unquote_plus (s : string) : string :=
  unquote (Py.replace "+" " " s).

Definition parse_pair (piece : string) : list (string * string) :=
  match piece with
  | "" => []
  | _ => match Py.split1 "=" piece with
         | [k; v] => [(unquote_plus k, unquote_plus v)]
         | [k] => [(unquote_plus k, "")]
         | _ => []
         end
  end.

Definition parse_qsl (q : string) : list (string * string) :=
  Py.split "&" q ≫= parse_pair.

(** First value of a parameter. *)
Fixpoint param (k : string) (l : list (string * string)) : option string :=
  match l with
  | [] => None
  | (k', v) :: r => if bool_decide (k' = k) then Some v else param k r
  end.

End Url.

(** ** A small effect monad: a trace of collaborator calls and a result
    that is a value or a raised exception *)

Module Effect.

Section Monad.
Context {Ev Ex : Type}.

Definition M (A : Type) : Type := list Ev * (Ex + A).

Definition ret {A} (a : A) : M A := ([], inr a).

Definition raise {A} (e : Ex) : M A := ([], inl e).

Definition bind {A B} (m : M A) (f : A → M B) : M B :=
  match m with
  | (t, inl e) => (t, inl e)
  | (t, inr a) => let '(t', r) := f a in (t ++ t', r)
  end.

(** [try: m except Exception as err: h err]. *)
Definition try {A} (m : M A) (h : Ex → M A) : M A :=
  match m with
  | (t, inl e) => let '(t', r) := h e in (t ++ t', r)
  | (t, inr a) => (t, inr a)
  end.

(** A call of a collaborator, recorded in the trace. *)
Definition call {A} (ev : Ev) (r : Ex + A) : M A := ([ev], r).

(** A call that leaves no mark. *)
Definition lift {A} (r : Ex + A) : M A := ([], r).

Definition trace {A} (m : M A) : list Ev := m.1.
Definition result {A} (m : M A) : Ex + A := m.2.
End Monad.

Arguments M : clear implicits.

End Effect.

Notation "x ←! m ; k" := (Effect.bind m (fun x => k))
  (at level 20, m at level 100, k at level 200, right associativity,
   format "x  ←!  m ; '/' k").
Notation "' p ←! m ; k" := (Effect.bind m (fun p => k))
  (at level 20, p pattern, m at level 100, k at level 200,
   right associativity, format "' p  ←!  m ; '/' k").

(** ** Python dicts whose order is observable *)

Module Dict.

Definition t : Type := list (string * string).

(** [d[k] = v]: a present key keeps its place, a new one goes last. *)
Fixpoint set (k v : string) (d : t) : t :=
  match d with
  | [] => [(k, v)]
  | (k', v') :: r =>
      if bool_decide (k' = k) then (k, v) :: r else (k', v') :: set k v r
  end.

(** [dict(items)]. *)
Definition of_items (items : list (string * string)) : t :=
  foldl (fun d kv => set kv.1 kv.2 d) [] items.

(** [d.get(k)]. *)
Fixpoint get (k : string) (d : t) : option string :=
  match d with
  | [] => None
  | (k', v) :: r => if bool_decide (k' = k) then Some v else get k r
  end.

(** [k in d]. *)
Definition mem (k : string) (d : t) : bool := bool_decide (is_Some (get k d)).

End Dict.

(** ** [navigator_auth/backends/adfs.py] *)

Module ADFS.

(** Exceptions, with what [str(err)] prints in an f-string. *)
Inductive exn : Type :=
| HTTPForbidden (reason : string)
| AuthException (msg : string)
| KeyError (key : string)
| Error (msg : string).

(** [Exception.__str__]: aiohttp's HTTP exceptions carry their reason, a
    [KeyError] prints the repr of the (plain ASCII) key. *)
Definition str (e : exn) : string :=
  match e with
  | HTTPForbidden reason => reason
  | AuthException msg => msg
  | KeyError key => "'" +:+ key +:+ "'"
  | Error msg => msg
  end.

(** The constants of [navigator_auth.conf] the two handlers read. Each
    field holds the text [urlencode] and f-strings print for it. *)
Record Config : Type := {
  ADFS_CLIENT_ID : string;
  ADFS_DEFAULT_RESOURCE : string;
  ADFS_SCOPES : string;
  ADFS_ISSUER : string;
}.

(** The fields of [self] the handlers read or assign. *)
Record Backend : Type := {
  redirect_uri : string;
  state : option string;
  authorize_uri : string;
  _token_uri : string;
  userinfo_uri : string;
  tenant_id : string;
  discovery_oid_uri : string;
}.

Definition _service_name : string := "adfs".

Definition set_redirect_uri (v : string) (self : Backend) : Backend :=
  {| redirect_uri := v; state := state self;
     authorize_uri := authorize_uri self; _token_uri := _token_uri self;
     userinfo_uri := userinfo_uri self; tenant_id := tenant_id self;
     discovery_oid_uri := discovery_oid_uri self |}.

Definition set_state (v : string) (self : Backend) : Backend :=
  {| redirect_uri := redirect_uri self; state := Some v;
     authorize_uri := authorize_uri self; _token_uri := _token_uri self;
     userinfo_uri := userinfo_uri self; tenant_id := tenant_id self;
     discovery_oid_uri := discovery_oid_uri self |}.

(** [request.rel_url.query.items()] is all a handler reads of a request
    itself; the rest goes to collaborators untouched. *)
Record Request : Type := {
  query : list (string * string);
  origin : string;
}.

Inductive Response : Type :=
| HTTPFound (location : string)
| HomeRedirect (token : option string) (token_type : string).

(** Calls that leave the process or build an identity. *)
Inductive Event : Type :=
| EvPost (uri : string) (data headers : Dict.t)
| EvGetPublicKey (token : string)
| EvJwtDecode (token : string)
| EvUserInfo (uri token : string)
| EvBuildUserInfo (token : string)
| EvValidateUserInfo (uid : string).

(** What the handlers call but this module does not define: the methods
    inherited from [ExternalAuth], [jwksutils.get_public_key],
    [jwt.decode], and the built-ins [str.format] and [repr]. *)
Class ExternalAuth : Type := {
  get_domain : Request → exn + string;
  get_finish_redirect_url : Request → exn + unit;
  (** [template.format(domain=.., service=..)] *)
  str_format : string → string → string → exn + string;
  (** [repr(d)], which is also [str(d)], of a dict of strings *)
  repr_dict : Dict.t → string;
  redirect : string → exn + Response;
  post : string → Dict.t → Dict.t → exn + gmap string string;
  get_public_key : string → string → string → exn + string;
  jwt_decode : string → string → string → string → exn + gmap string string;
  get : string → string → string → exn + gmap string string;
  build_user_info : gmap string string → string → exn + (gmap string string * string);
  validate_user_info :
    Request → string → gmap string string → string → exn + option (gmap string string);
  home_redirect : Request → option string → string → Response;
}.

Abbreviation M := (Effect.M Event exn).

Section Handlers.
Context `{ExternalAuth} (conf : Config).

(** Lines 127-141: the body of the [try] up to [login_url]. *)
Definition query_params (redirect_uri state : string) : Dict.t :=
  [ ("client_id", ADFS_CLIENT_ID conf);
    ("response_type", "code");
    ("redirect_uri", redirect_uri);
    ("resource", ADFS_DEFAULT_RESOURCE conf);
    ("response_mode", "query");
    ("state", state);
    ("scope", ADFS_SCOPES conf) ].

Definition login_url (self : Backend) (state : string) : string :=
  authorize_uri self +:+ "?"
    +:+ Url.urlencode (query_params (redirect_uri self) state).

(** [ADFSAuth.authenticate]. The two assignments to [self] happen in
    order; what is raised before the [try] escapes as it is, what is
    raised inside becomes an [AuthException]. *)
Definition authenticate (self : Backend) (request : Request)
  : Backend * (exn + Response) :=
  match get_domain request with
  | inl e => (self, inl e)
  | inr domain_url =>
      match str_format (redirect_uri self) domain_url _service_name with
      | inl e => (self, inl e)
      | inr uri =>
          let self := set_redirect_uri uri self in
          match get_finish_redirect_url request with
          | inl e => (self, inl e)
          | inr _ =>
              let state := Base64.urlsafe_b64encode (redirect_uri self) in
              let self := set_state state self in
              match redirect (login_url self state) with
              | inr r => (self, inr r)
              | inl err =>
                  (self,
                   inl (AuthException
                          ("Client doesn't have info for ADFS Authentication: "
                             +:+ str err)))
              end
          end
      end
  end.

(** Lines 155-172: the first [try] of the callback. *)
Definition read_callback (request : Request) : M string :=
  let auth_response := Dict.of_items (query request) in
  Effect.try
    (if Dict.mem "error" auth_response then
       Effect.raise
         (HTTPForbidden
            ("ADFS: Unable to Authenticate: " +:+ repr_dict auth_response))
     else
       match Dict.get "code" auth_response with
       | Some authorization_code => Effect.ret authorization_code
       | None => Effect.raise (KeyError "code")
       end)
    (fun err =>
       Effect.raise
         (HTTPForbidden
            ("ADFS: Invalid Callback response: " +:+ str err +:+ ": "
               +:+ repr_dict auth_response))).

Definition token_params (authorization_code : string) : Dict.t :=
  [ ("code", authorization_code);
    ("client_id", ADFS_CLIENT_ID conf);
    ("grant_type", "authorization_code");
    ("redirect_uri",
     "https://api.dev.navigator.mobileinsight.com/auth/adfs/callback");
    ("scope", ADFS_SCOPES conf) ].

Definition token_headers : Dict.t :=
  [ ("Content-Type", "application/x-www-form-urlencoded") ].

(** The one call of the token endpoint. *)
Definition exchange_event (self : Backend) (code : string) : Event :=
  EvPost (_token_uri self) (token_params code) token_headers.

(** [exchange[k]]. *)
Definition item (k : string) (d : gmap string string) : M string :=
  match d !! k with
  | Some v => Effect.ret v
  | None => Effect.raise (KeyError k)
  end.

(** [f"{d.get(k)}"]: a missing key prints as [None]. *)
Definition get_text (k : string) (d : gmap string string) : string :=
  default "None" (d !! k).

(** Lines 189-210: the token exchange. *)
Definition exchange_code (self : Backend) (authorization_code : string)
  : M (string * string) :=
  Effect.try
    (exchange ←! Effect.call
         (EvPost (_token_uri self) (token_params authorization_code) token_headers)
         (post (_token_uri self) (token_params authorization_code) token_headers);
     if bool_decide (is_Some (exchange !! "error")) then
       Effect.raise
         (HTTPForbidden
            ("ADFS " +:+ get_text "error" exchange +:+ ": "
               +:+ get_text "error_description" exchange +:+ "¡"))
     else
       access_token ←! item "access_token" exchange;
       token_type ←! item "token_type" exchange;
       Effect.ret (access_token, token_type))
    (fun err =>
       Effect.raise
         (HTTPForbidden
            ("Invalid Response from Token Server " +:+ str err +:+ "."))).

(** Lines 211-243: key resolution and verification of the access token. *)
Definition decode_token (self : Backend) (access_token : string)
  : M (gmap string string) :=
  Effect.try
    (public_key ←! Effect.call (EvGetPublicKey access_token)
         (get_public_key access_token (tenant_id self) (discovery_oid_uri self));
     Effect.call (EvJwtDecode access_token)
       (jwt_decode access_token public_key
          (ADFS_DEFAULT_RESOURCE conf) (ADFS_ISSUER conf)))
    (fun e =>
       Effect.raise
         (HTTPForbidden ("Unable to decode JWT token " +:+ str e +:+ "."))).

(** Lines 244-265: optional enrichment, then the identity. *)
Definition user_information (self : Backend) (request : Request)
    (data : gmap string string) (access_token token_type : string)
  : M (option (gmap string string)) :=
  Effect.try
    (data ←! Effect.try
         (Effect.call (EvUserInfo (userinfo_uri self) access_token)
            (get (userinfo_uri self) access_token token_type))
         (fun _ => Effect.ret data);
     '(userdata, uid) ←! Effect.call (EvBuildUserInfo access_token)
         (build_user_info data access_token);
     Effect.call (EvValidateUserInfo uid)
       (validate_user_info request uid userdata access_token))
    (fun err =>
       Effect.raise
         (HTTPForbidden ("ADFS: Error with User Information: " +:+ str err))).

(** Lines 155-273: the handler once the redirect URI is formatted. *)
Definition finish_callback (self : Backend) (request : Request) : M Response :=
  authorization_code ←! read_callback request;
  '(access_token, token_type) ←! exchange_code self authorization_code;
  data ←! decode_token self access_token;
  data ←! user_information self request data access_token token_type;
  let token := data ≫= (fun d => d !! "token") in
  Effect.ret (home_redirect request token "Bearer").

(** [ADFSAuth.auth_callback]. *)
Definition auth_callback (self : Backend) (request : Request)
  : Backend * M Response :=
  match get_domain request with
  | inl e => (self, Effect.raise e)
  | inr domain_url =>
      match str_format (redirect_uri self) domain_url _service_name with
      | inl e => (self, Effect.raise e)
      | inr uri =>
          let self := set_redirect_uri uri self in
          (self, finish_callback self request)
      end
  end.

End Handlers.

End ADFS.

(** ** [navigator_auth/backends/token.py] *)

Module Token.

(** Values found in a decoded JWT payload, a session or the request
    mapping. *)
Inductive value : Type :=
| VNone
| VBool (b : bool)
| VInt (n : Z)
| VStr (s : string)
| VList (l : list string).

#[global] Instance value_eq_dec : EqDecision value.
Proof. solve_decision. Defined.

(** The classes of [jwt.exceptions] the middleware tells apart; every
    other class of the library is an [InvalidTokenError]. *)
Inductive jwt_error : Type :=
| ExpiredSignatureError
| InvalidSignatureError
| DecodeError
| InvalidTokenError.

Inductive exn : Type :=
| AuthException (msg : string) (status : nat)
| InvalidAuth (msg : string) (status : nat)
| HTTPForbidden (reason : string)
| HTTPClientError (reason : string)
| JwtError (kind : jwt_error) (msg : string)
| TypeError (msg : string)
| KeyError (key : string)
| Error (msg : string).

(** Is the exception one of aiohttp's HTTP responses? *)
Definition is_http (e : exn) : bool :=
  match e with
  | HTTPForbidden _ | HTTPClientError _ => true
  | _ => false
  end.

(** [f"{err!s}"]; the message of the library's exceptions stands for
    their [repr] too. *)
Definition str (e : exn) : string :=
  match e with
  | AuthException msg _ | InvalidAuth msg _ => msg
  | HTTPForbidden reason | HTTPClientError reason => reason
  | JwtError _ msg | TypeError msg | Error msg => msg
  | KeyError key => "'" +:+ key +:+ "'"
  end.

(** A row of [auth.partner_keys]. *)
Record PartnerKey : Type := {
  pk_name : string;
  pk_partner : string;
  pk_grants : list string;
  pk_programs : list string;
  pk_enabled : bool;
  pk_revoked : bool;
}.

(** The columns the query selects. *)
Record Row : Type := {
  name : string;
  partner : string;
  grants : list string;
  programs : list string;
}.

#[global] Instance Row_eq_dec : EqDecision Row.
Proof. solve_decision. Defined.

(** The pool behind [app['authdb']]: unreachable (acquiring or querying
    raises), answering every query with an error, or holding a table. *)
Inductive AuthDb : Type :=
| Unreachable (err : string)
| Failing (err : string)
| Table (rows : list PartnerKey).

(** The authenticated entity ([TokenUser]). *)
Record AuthUser : Type := {
  user_id : string;
  username : string;
  user_programs : list string;
  user_tenant : option string;
  access_token : option string;
  is_authenticated : bool;
  userdata : gmap string value;
}.

Record Request : Type := {
  headers : gmap string string;
  items : gmap string value;
  user : option AuthUser;
  authdb : AuthDb;
}.

Definition set_user (u : option AuthUser) (r : Request) : Request :=
  {| headers := headers r; items := items r; user := u; authdb := authdb r |}.

Definition set_item (k : string) (v : value) (r : Request) : Request :=
  {| headers := headers r; items := <[k := v]> (items r); user := user r;
     authdb := authdb r |}.

Inductive Response : Type :=
  Resp (status : nat) (body : string).

(** What [get_session] hands back: [decode_user] is the outcome of
    [session.decode('user')]. *)
Record Session : Type := {
  decode_user : exn + option AuthUser;
}.

Inductive Event : Type :=
| EvQuery (name partner : value) (tenant : option string)
| EvGetSession (request : Request)
| EvSessionSet (key : string) (v : value)
| EvHandler (request : Request).

(** The configuration of the backend object. *)
Record TokenAuth : Type := {
  scheme : string;
  session_key_property : string;
  username_attribute : string;
  AUTH_TOKEN_ISSUER : string;
}.

(** What the backend calls but does not define: [jwt.decode] under
    [AUTH_TOKEN_SECRET] and [AUTH_JWT_ALGORITHM] with the leeway of 30
    seconds, the methods of [BaseAuthBackend], [get_session], and the
    downstream handler. *)
Class Collaborators : Type := {
  jwt_decode : string → exn + gmap string value;
  create_user : gmap string value → exn + AuthUser;
  create_jwt : gmap string value → exn + string;
  remember : Request → string → gmap string value → AuthUser → exn + unit;
  get_session : Request → gmap string value → exn + Session;
  handler : Request → exn + Response;
}.

Abbreviation M := (Effect.M Event exn).

(** [tenant, token = value]: only a list of two unpacks. *)
Definition unpack2 {A} (l : list A) : option (A * A) :=
  match l with
  | [a; b] => Some (a, b)
  | _ => None
  end.

(** The [WHERE] clause of the query, for text arguments. *)
Definition sql_where (name partner tenant : string) (r : PartnerKey) : bool :=
  bool_decide (pk_name r = name) && bool_decide (pk_partner r = partner)
  && pk_enabled r && negb (pk_revoked r)
  && bool_decide (tenant ∈ pk_programs r).

Definition select (r : PartnerKey) : Row :=
  {| name := pk_name r; partner := pk_partner r;
     grants := pk_grants r; programs := pk_programs r |}.

(** [conn.queryrow(sql, name, partner, tenant)]: the pair of a result and
    an error. A comparison with [NULL] selects nothing; the driver raises
    on an argument that is not text. *)
Definition queryrow (db : AuthDb) (name partner : value) (tenant : option string)
  : exn + (option Row * option string) :=
  match db with
  | Unreachable err => inl (Error err)
  | Failing err => inr (None, Some err)
  | Table rows =>
      match name, partner with
      | VStr n, VStr p =>
          match tenant with
          | Some t => inr (select <$> List.find (sql_where n p t) rows, None)
          | None => inr (None, None)
          end
      | VNone, (VNone | VStr _) | VStr _, VNone => inr (None, None)
      | _, _ => inl (Error "invalid input for query argument")
      end
  end.

(** The claim's reading of the split: at the first colon. *)
Definition split_first (cred : string) : option string * option string :=
  match Py.split1 ":" cred with
  | [tenant; token] => (Some tenant, Some token)
  | _ => (None, Some cred)
  end.

Section Backend.
Context `{Collaborators} (self : TokenAuth).

(** Lines 46-64: the body of the [try] of [get_payload], for a request
    that carries the header. *)
Definition parse_authorization (header : string)
  : exn + (option string * option string) :=
  match unpack2 (Py.split1 " " (Py.strip header)) with
  | None => inl (AuthException "Invalid authorization Header" 400)
  | Some (scheme', id) =>
      if bool_decide (scheme' ≠ scheme self) then
        inl (AuthException "Invalid Authorization Scheme" 400)
      else
        match unpack2 (Py.split ":" id) with
        | Some (tenant, token) => inr (Some tenant, Some token)
        | None => inr (None, Some id)
        end
  end.

(** [TokenAuth.get_payload]: [None] is Python's [None], returned when
    anything was raised; otherwise the list [[tenant, token]]. *)
Definition get_payload (request : Request)
  : option (option string * option string) :=
  match headers request !! "Authorization" with
  | Some header =>
      match parse_authorization header with
      | inr p => Some p
      | inl _ => None
      end
  | None => Some (None, None)
  end.

(** [TokenAuth.check_token_info]: [None] is the [False] it returns. *)
Definition check_token_info (request : Request) (tenant : option string)
    (payload : gmap string value) : M (option Row) :=
  match payload !! "name", payload !! "partner" with
  | Some name, Some partner =>
      Effect.try
        ('(result, error) ←! Effect.call (EvQuery name partner tenant)
             (queryrow (authdb request) name partner tenant);
         match error, result with
         | None, Some row => Effect.ret (Some row)
         | _, _ => Effect.ret None
         end)
        (fun _ => Effect.ret None)
  | _, _ => Effect.ret None
  end.

(** Line 114: the [user] dict. *)
Definition user_dict (data : Row) (tenant : option string) : gmap string value :=
  <["name" := VStr (name data)]>
  (<["partner" := VStr (partner data)]>
  (<["issuer" := VStr (AUTH_TOKEN_ISSUER self)]>
  (<["programs" := VList (programs data)]>
  (<["grants" := VList (grants data)]>
  (<["tenant" := from_option VStr VNone tenant]>
  (<["id" := VStr (name data)]>
  (<["user_id" := VStr (name data)]> ∅))))))).

(** Lines 112 and 124: [dict(data)] with the session key. *)
Definition user_data (data : Row) : gmap string value :=
  <[session_key_property self := VStr (name data)]>
  (<["name" := VStr (name data)]>
  (<["partner" := VStr (partner data)]>
  (<["grants" := VList (grants data)]>
  (<["programs" := VList (programs data)]> ∅)))).

(** [f"{tenant}"]. *)
Definition tenant_text (tenant : option string) : string :=
  default "None" tenant.

(** Lines 126-132: the attributes assigned on the created user. *)
Definition fill_user (usr : AuthUser) (id : string) (progs : list string)
    (tenant : option string) (token : option string) : AuthUser :=
  {| user_id := id; username := id; user_programs := progs;
     user_tenant := tenant; access_token := token;
     is_authenticated := is_authenticated usr;
     userdata := <[username_attribute self := VStr id]> (userdata usr) |}.

(** What [authenticate] returns: the dict, or [False]. *)
Inductive AuthResult : Type :=
| Authenticated (info : gmap string value)
| ReturnedFalse.

(** Lines 111-143: the last [try] of [authenticate]. *)
Definition build_identity (request : Request) (tenant : option string)
    (data : Row) : M AuthResult :=
  Effect.try
    (let userdata := user_data data in
     let id := name data in
     let user := user_dict data tenant in
     usr ←! Effect.lift (create_user userdata);
     let usr := fill_user usr id (programs data) tenant None in
     token ←! Effect.lift (create_jwt user);
     let usr := fill_user usr id (programs data) tenant (Some token) in
     _ ←! Effect.lift (remember request id userdata usr);
     Effect.ret
       (Authenticated
          (<["token" := VStr (tenant_text tenant +:+ ":" +:+ token)]> user)))
    (fun _ => Effect.ret ReturnedFalse).

(** [TokenAuth.authenticate]. *)
Definition authenticate (request : Request) : M AuthResult :=
  match get_payload request with
  | None =>
      Effect.raise
        (AuthException "cannot unpack non-iterable NoneType object" 400)
  | Some (tenant, token) =>
      match token with
      | None | Some "" => Effect.raise (InvalidAuth "Invalid Credentials" 401)
      | Some token =>
          payload ←! Effect.lift (jwt_decode token);
          data ←! check_token_info request tenant payload;
          match data with
          | None =>
              Effect.raise (InvalidAuth ("Invalid Session: " +:+ token) 401)
          | Some data => build_identity request tenant data
          end
      end
  end.

(** Lines 186-209: the body of the middleware's [try]. *)
Definition verify (request : Request) (tenant : option string)
    (jwt_token : string) : M Request :=
  payload ←! Effect.lift (jwt_decode jwt_token);
  result ←! check_token_info request tenant payload;
  match result with
  | None => Effect.raise (HTTPForbidden "API Key Not Authorized")
  | Some result =>
      name ←! Effect.lift
        (from_option inr (inl (KeyError "name")) (payload !! "name"));
      let request := set_item (session_key_property self) name request in
      session ←! Effect.call (EvGetSession request) (get_session request payload);
      _ ←! Effect.call (EvSessionSet "grants" (VList (grants result))) (inr ());
      _ ←! Effect.call (EvSessionSet "partner" (VStr (partner result))) (inr ());
      _ ←! Effect.call (EvSessionSet "tenant" (from_option VStr VNone tenant))
             (inr ());
      request ←!
        match decode_user session with
        | inr (Some u) =>
            Effect.ret
              (set_user
                 (Some {| user_id := user_id u; username := username u;
                          user_programs := user_programs u;
                          user_tenant := user_tenant u;
                          access_token := access_token u;
                          is_authenticated := true;
                          userdata := userdata u |}) request)
        | inr None =>
            Effect.raise
              (Error "'NoneType' object has no attribute 'is_authenticated'")
        | inl (KeyError _) => Effect.ret request
        | inl e => Effect.raise e
        end;
      Effect.ret (set_item "authenticated" (VBool true) request)
  end.

(** Lines 210-229: the [except] clauses of the middleware, in order. *)
Definition reject (err : exn) : exn :=
  match err with
  | JwtError ExpiredSignatureError _ =>
      HTTPForbidden ("TokenAuth: token expired: " +:+ str err)
  | JwtError InvalidSignatureError _ =>
      HTTPForbidden ("TokenAuth: Invalid or missing Credentials: " +:+ str err)
  | JwtError _ _ =>
      HTTPForbidden ("TokenAuth: Invalid authorization token: " +:+ str err)
  | _ => HTTPClientError ("Error on TokenAuth Middleware: " +:+ str err)
  end.

(** Lines 183-230: what follows the check of the flag. *)
Definition intercept (request : Request) : M Response :=
  match get_payload request with
  | None => Effect.raise (TypeError "cannot unpack non-iterable NoneType object")
  | Some (tenant, jwt_token) =>
      match jwt_token with
      | None | Some "" => Effect.call (EvHandler request) (handler request)
      | Some jwt_token =>
          request ←! Effect.try (verify request tenant jwt_token)
                       (fun err => Effect.raise (reject err));
          Effect.call (EvHandler request) (handler request)
      end
  end.

(** The closure [middleware] of [TokenAuth.auth_middleware]. *)
Definition middleware (request : Request) : M Response :=
  let request := set_user None request in
  if bool_decide (items request !! "authenticated" = Some (VBool true)) then
    Effect.try (Effect.call (EvHandler request) (handler request))
      (fun err =>
         match err with
         | KeyError _ => intercept request
         | _ => Effect.raise err
         end)
  else intercept request.


(** The ways a key lookup comes back empty-handed. *)
Inductive lookup_fails (request : Request) (tenant : option string)
    (payload : gmap string value) : Prop :=
| no_name : payload !! "name" = None → lookup_fails request tenant payload
| no_partner : payload !! "partner" = None → lookup_fails request tenant payload
| query_raises err :
    authdb request = Unreachable err → lookup_fails request tenant payload
| query_error err :
    authdb request = Failing err → lookup_fails request tenant payload
| no_record rows :
    authdb request = Table rows →
    (∀ n p t, payload !! "name" = Some (VStr n) →
              payload !! "partner" = Some (VStr p) →
              tenant = Some t →
              List.find (sql_where n p t) rows = None) →
    lookup_fails request tenant payload.

(** The ways the steps after a successful lookup fail. *)
Inductive identity_step_raises (request : Request) (tenant : option string)
    (data : Row) : Prop :=
| create_user_raises e :
    create_user (user_data data) = inl e →
    identity_step_raises request tenant data
| create_jwt_raises usr e :
    create_user (user_data data) = inr usr →
    create_jwt (user_dict data tenant) = inl e →
    identity_step_raises request tenant data
| remember_raises usr token e :
    create_user (user_data data) = inr usr →
    create_jwt (user_dict data tenant) = inr token →
    remember request (name data) (user_data data)
      (fill_user (fill_user usr (name data) (programs data) tenant None)
         (name data) (programs data) tenant (Some token)) = inl e →
    identity_step_raises request tenant data.

End Backend.




End Token.

(** ** Concrete deployments, for the examples *)

Module ADFSSample.
Import ADFS.

Definition conf : Config :=
  {| ADFS_CLIENT_ID := "client-1";
     ADFS_DEFAULT_RESOURCE := "urn:navigator:api";
     ADFS_SCOPES := "['openid']";
     ADFS_ISSUER := "https://sts.example.com/adfs/services/trust" |}.

Definition backend : Backend :=
  {| redirect_uri := "{domain}/auth/adfs/callback";
     state := None;
     authorize_uri := "https://sts.example.com/adfs/oauth2/authorize/";
     _token_uri := "https://sts.example.com/adfs/oauth2/token";
     userinfo_uri := "https://sts.example.com/adfs/userinfo";
     tenant_id := "adfs";
     discovery_oid_uri :=
       "https://sts.example.com/adfs/.well-known/openid-configuration" |}.

Definition format (template domain service : string) : exn + string :=
  if bool_decide (template = "{domain}/auth/adfs/callback")
  then inr (domain +:+ "/auth/adfs/callback")
  else inr template.

Definition repr_item (kv : string * string) : string :=
  "'" +:+ kv.1 +:+ "': '" +:+ kv.2 +:+ "'".

Definition repr (d : Dict.t) : string :=
  "{" +:+ Py.join ", " (repr_item <$> d) +:+ "}".

(** An identity provider whose token endpoint answers [reply]. *)
Definition provider (reply : exn + gmap string string) : ExternalAuth :=
  {| get_domain := λ r, inr (origin r);
     get_finish_redirect_url := λ _, inr ();
     str_format := format;
     repr_dict := repr;
     redirect := λ url, inr (HTTPFound url);
     post := λ _ _ _, reply;
     get_public_key := λ _ _ _, inr "key";
     jwt_decode := λ _ _ _ _, inr ∅;
     get := λ _ _ _, inr ∅;
     build_user_info := λ d _, inr (d, "alice@example.com");
     validate_user_info := λ _ _ d _, inr (Some d);
     home_redirect := λ _ token token_type, HomeRedirect token token_type |}.

Definition rejecting : ExternalAuth :=
  provider (inr {[ "error" := "invalid_grant";
                   "error_description" := "expired" ]}).


Definition login : Request :=
  {| query := []; origin := "https://app.example.com" |}.


Definition returned : Request :=
  {| query := [("code", "abc"); ("state", "xyz")];
     origin := "https://app.example.com" |}.
End ADFSSample.

Module TokenSample.
Import Token.

Definition backend : TokenAuth :=
  {| scheme := "Bearer"; session_key_property := "id";
     username_attribute := "username";
     AUTH_TOKEN_ISSUER := "urn:Navigator" |}.

Definition key : PartnerKey :=
  {| pk_name := "svc"; pk_partner := "acme-corp"; pk_grants := ["read"];
     pk_programs := ["acme"]; pk_enabled := true; pk_revoked := false |}.

Definition identity : gmap string value :=
  user_dict backend (select key) (Some "acme").

Definition first_payload : gmap string value :=
  {[ "name" := VStr "svc"; "partner" := VStr "acme-corp" ]}.

Definition decode (token : string) : exn + gmap string value :=
  if bool_decide (token = "eyJ.first.sig") then inr first_payload
  else if bool_decide (token = "eyJ.issued.sig") then inr identity
  else if bool_decide (token = "eyJ.anonymous.sig") then inr {[ "name" := VStr "svc" ]}
  else inl (JwtError DecodeError "Not enough segments").

Definition blank_user (data : gmap string value) : AuthUser :=
  {| user_id := ""; username := ""; user_programs := []; user_tenant := None;
     access_token := None; is_authenticated := false; userdata := data |}.

(** Collaborators that work, but for a session store answering [store]. *)
Definition collaborators (store : exn + unit) : Collaborators :=
  {| jwt_decode := decode;
     create_user := λ data, inr (blank_user data);
     create_jwt := λ data,
       if bool_decide (data = identity) then inr "eyJ.issued.sig"
       else inl (Error "nothing to sign");
     remember := λ _ _ _ _, store;
     get_session := λ _ _, inr {| decode_user := inl (KeyError "user") |};
     handler := λ _, inr (Resp 200 "ok") |}.

Definition working : Collaborators := collaborators (inr ()).
Definition forgetful : Collaborators :=
  collaborators (inl (Error "session store down")).

Definition with_header (h : string) : Request :=
  {| headers := {[ "Authorization" := h ]}; items := ∅; user := None;
     authdb := Table [key] |}.

Definition alice : AuthUser :=
  {| user_id := "alice"; username := "alice"; user_programs := ["acme"];
     user_tenant := Some "acme"; access_token := None;
     is_authenticated := true; userdata := ∅ |}.

Definition flagged : Request :=
  {| headers := ∅; items := {[ "authenticated" := VBool true ]};
     user := Some alice; authdb := Table [key] |}.
End TokenSample.

(** ** [ADFSAuth.configure] and [ADFSAuth.logout] *)

Module ADFSSetup.
Import ADFS.

(** The constants of [navigator_auth.conf] that [configure] reads. A
    constant that may be [None] is an option. *)
Record Settings : Type := {
  ADFS_SERVER : string;
  ADFS_TENANT_ID : option string;
  AZURE_AD_SERVER : string;
  USERNAME_CLAIM : string;
  GROUP_CLAIM : string;
  ADFS_CLAIM_MAPPING : Dict.t;
  ADFS_CALLBACK_REDIRECT_URL : option string;
  ADFS_LOGIN_REDIRECT_URL : option string;
}.

(** The attributes [configure] assigns beside those of [Backend]. An
    attribute that one branch leaves alone keeps what the object had. *)
Record Endpoints : Type := {
  server : string;
  username_claim : string;
  groups_claim : string;
  claim_mapping : Dict.t;
  _discovery_keys_uri : option string;
  base_uri : string;
  end_session_endpoint : string;
  _issuer : string;
}.

(** [router.add_route(method, path, handler, name=name)]. *)
Inductive Handler : Type := Authenticate | AuthCallback.

Record Route : Type := {
  route_method : string;
  route_path : string;
  route_handler : Handler;
  route_name : string;
}.

(** The router of the application and the module-level [exclude_list]. *)
Record App : Type := {
  routes : list Route;
  exclude_list : list string;
}.

(** [if ADFS_TENANT_ID:]: [None] and the empty string are false. *)
Definition tenant_set (s : Settings) : option string :=
  match ADFS_TENANT_ID s with
  | Some t => if Py.truthy t then Some t else None
  | None => None
  end.

(** [ADFSAuth.configure]. [inherited] is [self.redirect_uri] and
    [keys_uri] is [self._discovery_keys_uri] as the object had them;
    [base_configure] is the [configure] of [ExternalAuth]. *)
Definition configure (s : Settings) (base_configure : App → App)
    (inherited : string) (state0 : option string) (keys_uri : option string)
    (app : App) : Backend * Endpoints * App :=
  let '(server, tenant_id, username_claim, groups_claim, discovery, keys) :=
    match tenant_set s with
    | Some t =>
        (AZURE_AD_SERVER s, t, "upn", "groups",
         "https://login.microsoftonline.com/" +:+ t
           +:+ "/.well-known/openid-configuration",
         keys_uri)
    | None =>
        (ADFS_SERVER s, "adfs", USERNAME_CLAIM s, GROUP_CLAIM s,
         "https://" +:+ ADFS_SERVER s +:+ "/adfs/.well-known/openid-configuration",
         Some ("https://" +:+ ADFS_SERVER s +:+ "/adfs/discovery/keys"))
    end in
  let root := "https://" +:+ server +:+ "/" +:+ tenant_id in
  let login :=
    default ("/api/v1/auth/" +:+ _service_name) (ADFS_LOGIN_REDIRECT_URL s) in
  let callback :=
    default ("/auth/" +:+ _service_name +:+ "/callback")
      (ADFS_CALLBACK_REDIRECT_URL s) in
  let redirect_uri :=
    match ADFS_CALLBACK_REDIRECT_URL s with
    | Some c => "{domain}" +:+ c
    | None => inherited
    end in
  ({| redirect_uri := redirect_uri;
      state := state0;
      authorize_uri := root +:+ "/oauth2/authorize/";
      _token_uri := root +:+ "/oauth2/token";
      userinfo_uri := root +:+ "/userinfo";
      tenant_id := tenant_id;
      discovery_oid_uri := discovery |},
   {| server := server;
      username_claim := username_claim;
      groups_claim := groups_claim;
      claim_mapping := ADFS_CLAIM_MAPPING s;
      _discovery_keys_uri := keys;
      base_uri := "https:://" +:+ server +:+ "/";
      end_session_endpoint := root +:+ "/ls/?wa=wsignout1.0";
      _issuer := root +:+ "/services/trust" |},
   base_configure
     {| routes :=
          routes app
          ++ [ {| route_method := "GET"; route_path := login;
                  route_handler := Authenticate;
                  route_name := _service_name +:+ "_login" |};
               {| route_method := "*"; route_path := callback;
                  route_handler := AuthCallback;
                  route_name := _service_name +:+ "_callback_login" |} ];
        exclude_list := exclude_list app ++ [redirect_uri] |}).

(** [ADFSAuth.logout]: the request is not read. *)
Definition logout (e : Endpoints) (request : Request) : Response :=
  HTTPFound (end_session_endpoint e).


End ADFSSetup.

(** ** Views of a request in the token middleware *)

Module TokenViews.
Import Token.

(** A request that brings no token: no Authorization header, or one whose
    credential ends at the colon. *)
Definition carries_no_token (self : TokenAuth) (request : Request) : Prop :=
  headers request !! "Authorization" = None
  ∨ ∃ header tenant,
      headers request !! "Authorization" = Some header
      ∧ Py.strip header = scheme self +:+ " " +:+ tenant +:+ ":"
      ∧ Py.contains " " (scheme self) = false
      ∧ Py.contains ":" tenant = false.

(** The request the handler gets once the token is verified: the session
    key, the user of the session and the flag, in the order assigned. *)
Definition verified_request (self : TokenAuth) (request : Request) (name : value)
    (u : option AuthUser) : Request :=
  set_item "authenticated" (VBool true)
    (set_user
       ((λ u, {| user_id := user_id u; username := username u;
                 user_programs := user_programs u; user_tenant := user_tenant u;
                 access_token := access_token u; is_authenticated := true;
                 userdata := userdata u |}) <$> u)
       (set_item (session_key_property self) name (set_user None request))).

End TokenViews.

(** ** Further deployments, for the examples *)

Module ADFSCases.
Import ADFS ADFSSetup ADFSSample.

(** A provider that grants a token; its userinfo endpoint times out. *)
Definition granting : ExternalAuth :=
  {| get_domain := λ r, inr (origin r);
     get_finish_redirect_url := λ _, inr ();
     str_format := format;
     repr_dict := repr;
     redirect := λ url, inr (HTTPFound url);
     post := λ _ _ _,
       inr {[ "access_token" := "eyJ.access.sig"; "token_type" := "bearer" ]};
     get_public_key := λ _ _ _, inr "key";
     jwt_decode := λ _ _ _ _, inr {[ "upn" := "alice@example.com" ]};
     get := λ _ _ _, inl (Error "timeout");
     build_user_info := λ d _, inr (d, default "" (d !! "upn"));
     validate_user_info := λ _ uid d _,
       inr (Some (<["token" := "session-" +:+ uid]> d));
     home_redirect := λ _ token token_type, HomeRedirect token token_type |}.

(** An application whose redirect helper fails. *)
Definition stuck : ExternalAuth :=
  {| get_domain := λ r, inr (origin r);
     get_finish_redirect_url := λ _, inr ();
     str_format := format;
     repr_dict := repr;
     redirect := λ _, inl (Error "no route");
     post := λ _ _ _, inr ∅;
     get_public_key := λ _ _ _, inr "key";
     jwt_decode := λ _ _ _ _, inr ∅;
     get := λ _ _ _, inr ∅;
     build_user_info := λ d _, inr (d, "");
     validate_user_info := λ _ _ d _, inr (Some d);
     home_redirect := λ _ token token_type, HomeRedirect token token_type |}.

(** A token endpoint that answers without a token type. *)
Definition untyped : ExternalAuth :=
  provider (inr {[ "access_token" := "eyJ.access.sig" ]}).

Definition twice : Request :=
  {| query := [("code", "first"); ("state", "xyz"); ("code", "second")];
     origin := "https://app.example.com" |}.

Definition settings : Settings :=
  {| ADFS_SERVER := "sts.example.com";
     ADFS_TENANT_ID := Some "";
     AZURE_AD_SERVER := "login.microsoftonline.com";
     USERNAME_CLAIM := "upn";
     GROUP_CLAIM := "group";
     ADFS_CLAIM_MAPPING := [];
     ADFS_CALLBACK_REDIRECT_URL := Some "/auth/adfs/callback";
     ADFS_LOGIN_REDIRECT_URL := None |}.

Definition empty_app : App := {| routes := []; exclude_list := [] |}.

Definition configured : Backend * Endpoints * App :=
  configure settings id "{domain}/auth/{service}/callback/" None None empty_app.
End ADFSCases.

Module TokenCases.
Import Token TokenSample.

(** Collaborators with a session that holds a user, and a handler that
    answers [reply]. *)
Definition serving (reply : exn + Response) : Collaborators :=
  {| jwt_decode := λ token,
       if bool_decide (token = "eyJ.expired.sig")
       then inl (JwtError ExpiredSignatureError "Signature has expired")
       else decode token;
     create_user := λ data, inr (blank_user data);
     create_jwt := λ _, inr "eyJ.issued.sig";
     remember := λ _ _ _ _, inr ();
     get_session := λ _ _,
       inr {| decode_user :=
                inr (Some {| user_id := "svc"; username := "svc";
                             user_programs := ["acme"];
                             user_tenant := Some "acme"; access_token := None;
                             is_authenticated := false; userdata := ∅ |}) |};
     handler := λ _, reply |}.

Definition bare : Request :=
  {| headers := ∅; items := ∅; user := Some alice; authdb := Table [key] |}.

Definition flagged_bare : Request :=
  {| headers := ∅; items := {[ "authenticated" := VBool true ]};
     user := None; authdb := Table [key] |}.
End TokenCases.

(** * Properties *)

Module PyFacts.
Import Py.

Lemma app_nil_r s : s +:+ "" = s.
Proof. induction s as [|c s IH]; simpl; by rewrite ?IH. Qed.

Lemma app_assoc s1 s2 s3 : (s1 +:+ s2) +:+ s3 = s1 +:+ s2 +:+ s3.
Proof. induction s1 as [|c s1 IH]; simpl; by rewrite ?IH. Qed.

Lemma ascii_eqb_refl c : ascii_eqb c c = true.
Proof. unfold ascii_eqb. by apply bool_decide_eq_true. Qed.

Lemma ascii_eqb_sym a b : ascii_eqb a b = ascii_eqb b a.
Proof. unfold ascii_eqb. apply bool_decide_ext. naive_solver. Qed.

Lemma contains_app c s1 s2 :
  contains c (s1 +:+ s2) = contains c s1 || contains c s2.
Proof.
  induction s1 as [|x s1 IH]; simpl; [done|]. rewrite IH. by rewrite orb_assoc.
Qed.

Lemma split_nonempty sep s : split sep s ≠ [].
Proof.
  induction s as [|x s IH]; simpl; [done|].
  destruct (ascii_eqb x sep); [done|]. by destruct (split sep s).
Qed.

Lemma split_no_sep sep s : contains sep s = false → split sep s = [s].
Proof.
  induction s as [|x s IH]; simpl; [done|].
  intros [Hx Hs]%orb_false_elim. rewrite Hx. by rewrite IH.
Qed.

Lemma split_app_sep sep a b :
  contains sep a = false →
  split sep (a +:+ String sep b) = a :: split sep b.
Proof.
  induction a as [|x a IH]; simpl.
  - intros _. by rewrite ascii_eqb_refl.
  - intros [Hx Ha]%orb_false_elim. rewrite Hx. by rewrite IH.
Qed.

Lemma split1_no_sep sep s : contains sep s = false → split1 sep s = [s].
Proof.
  induction s as [|x s IH]; simpl; [done|].
  intros [Hx Hs]%orb_false_elim. rewrite Hx. by rewrite IH.
Qed.

Lemma split1_app_sep sep a b :
  contains sep a = false →
  split1 sep (a +:+ String sep b) = [a; b].
Proof.
  induction a as [|x a IH]; simpl.
  - intros _. by rewrite ascii_eqb_refl.
  - intros [Hx Ha]%orb_false_elim. rewrite Hx. by rewrite IH.
Qed.

(** Splitting undoes joining when no piece holds the separator. *)
Lemma split_join sep x l :
  Forall (fun s => contains sep s = false) (x :: l) →
  split sep (join (String sep "") (x :: l)) = x :: l.
Proof.
  revert x. induction l as [|y l IH]; intros x Hall.
  - simpl. apply split_no_sep. by inversion Hall.
  - inversion Hall as [|?? Hx Hrest]; subst.
    change (join (String sep "") (x :: y :: l))
      with (x +:+ String sep (join (String sep "") (y :: l))).
    rewrite split_app_sep by done. by rewrite IH.
Qed.
End PyFacts.

Module Base64Facts.
Import Base64.

Lemma sextet_of_char_of_sextet x : sextet_of_char (char_of_sextet x) = Some x.
Proof. by destruct x as [[] [] [] [] [] []]. Qed.

Lemma char_of_sextet_not_pad x : Py.ascii_eqb (char_of_sextet x) pad = false.
Proof. by destruct x as [[] [] [] [] [] []]. Qed.

Ltac groups :=
  unfold dec_group, is_padded;
  rewrite ?sextet_of_char_of_sextet, ?char_of_sextet_not_pad,
    ?PyFacts.ascii_eqb_refl; simpl;
  rewrite ?sextet_of_char_of_sextet, ?char_of_sextet_not_pad,
    ?PyFacts.ascii_eqb_refl; simpl.

Lemma decode_enc1 a : urlsafe_b64decode (enc1 a) = Some (String a "").
Proof. destruct a. unfold enc1. simpl. groups. done. Qed.

Lemma decode_enc2 a b :
  urlsafe_b64decode (enc2 a b) = Some (String a (String b "")).
Proof. destruct a, b. unfold enc2. simpl. groups. done. Qed.

Lemma decode_enc3 a b c r :
  urlsafe_b64decode (enc3 a b c +:+ r)
  = t ← urlsafe_b64decode r; Some (String a (String b (String c t))).
Proof.
  destruct a, b, c. unfold enc3. simpl. groups.
  by destruct (urlsafe_b64decode r).
Qed.

(** Decoding undoes encoding. *)
Lemma decode_encode s : urlsafe_b64decode (urlsafe_b64encode s) = Some s.
Proof.
  assert (∀ s,
    urlsafe_b64decode (urlsafe_b64encode s) = Some s
    ∧ (∀ a, urlsafe_b64decode (urlsafe_b64encode (String a s))
            = Some (String a s))
    ∧ (∀ a b, urlsafe_b64decode (urlsafe_b64encode (String a (String b s)))
              = Some (String a (String b s)))) as Hall.
  { clear s. induction s as [|c s (IH0 & IH1 & IH2)].
    - split; [done|]. split; intros; [apply decode_enc1|apply decode_enc2].
    - split; [apply IH1|]. split; [intros; apply IH2|].
      intros a b.
      change (urlsafe_b64encode (String a (String b (String c s))))
        with (enc3 a b c +:+ urlsafe_b64encode s).
      rewrite decode_enc3, IH0. done. }
  apply Hall.
Qed.
End Base64Facts.

Module StripFacts.
Import Py PyFacts.







(** Reversal. *)
Lemma rev_app_app s t : String.rev_app s t = String.rev s +:+ t.
Proof.
  unfold String.rev. revert t. induction s as [|c s IH]; intros t; [done|].
  simpl. rewrite (IH (String c "")), IH, app_assoc. done.
Qed.




Lemma all_chars_app p s t :
  all_chars p (s +:+ t) = all_chars p s && all_chars p t.
Proof.
  induction s as [|c s IH]; simpl; [done|]. by rewrite IH, andb_assoc.
Qed.

Lemma all_chars_rev p s : all_chars p (String.rev s) = all_chars p s.
Proof.
  induction s as [|c s IH]; [done|].
  change (String.rev (String c s)) with (String.rev_app s (String c "")).
  rewrite rev_app_app, all_chars_app, IH. simpl.
  rewrite andb_true_r. apply andb_comm.
Qed.







End StripFacts.

Module SplitFacts.
Import Py PyFacts.

Lemma count_0_contains c s : count c s = 0 ↔ contains c s = false.
Proof.
  induction s as [|x s IH]; simpl; [done|].
  destruct (ascii_eqb x c); simpl; [split; [lia|done]|done].
Qed.

Lemma split_length sep s : length (split sep s) = S (count sep s).
Proof.
  induction s as [|x s IH]; simpl; [done|].
  destruct (ascii_eqb x sep); simpl; [by rewrite IH|].
  pose proof (split_nonempty sep s).
  destruct (split sep s); [done|]. simpl in *. lia.
Qed.

Lemma split1_two sep s a b :
  split1 sep s = [a; b] → s = a +:+ String sep b ∧ contains sep a = false.
Proof.
  revert a. induction s as [|x s IH]; intros a; simpl; [done|].
  destruct (ascii_eqb x sep) eqn:Hx.
  - intros [= <- <-]. apply bool_decide_eq_true in Hx as ->. done.
  - destruct (split1 sep s) as [|h [|h2 [|]]] eqn:Hs; try done.
    intros [= <- <-]. destruct (IH h eq_refl) as [-> Hh].
    simpl. by rewrite Hx.
Qed.

Lemma split_two sep s a b :
  split sep s = [a; b] →
  s = a +:+ String sep b ∧ contains sep a = false ∧ contains sep b = false.
Proof.
  revert a. induction s as [|x s IH]; intros a; simpl; [done|].
  destruct (ascii_eqb x sep) eqn:Hx.
  - intros [= <- Hs]. apply bool_decide_eq_true in Hx as ->.
    pose proof (split_length sep s) as Hl. rewrite Hs in Hl. simpl in Hl.
    assert (contains sep s = false) as Hc by (apply count_0_contains; lia).
    rewrite (split_no_sep _ _ Hc) in Hs. by injection Hs as ->.
  - destruct (split sep s) as [|h [|h2 [|]]] eqn:Hs; try done.
    intros [= <- <-]. destruct (IH h eq_refl) as (-> & Hh & Hb).
    simpl. by rewrite Hx.
Qed.

Lemma split_one_sep sep a b :
  contains sep a = false → contains sep b = false →
  split sep (a +:+ String sep b) = [a; b].
Proof. intros Ha Hb. by rewrite split_app_sep, split_no_sep. Qed.

(** One occurrence: the string falls into the two parts around it. *)
Lemma count_1_split sep s :
  count sep s = 1 →
  ∃ a b, s = a +:+ String sep b ∧ contains sep a = false
         ∧ contains sep b = false ∧ split sep s = [a; b].
Proof.
  intros Hc. pose proof (split_length sep s) as Hl. rewrite Hc in Hl.
  destruct (split sep s) as [|a [|b [|]]] eqn:Hs; try done.
  destruct (split_two _ _ _ _ Hs) as (-> & Ha & Hb). by exists a, b.
Qed.
End SplitFacts.

Module UrlFacts.
Import Url.

Ltac each_byte c := destruct c as [[] [] [] [] [] [] [] []].

Lemma quote_cons safe c r :
  quote safe (String c r)
  = if always_safe c || Py.contains c safe then String c (quote safe r)
    else escape c (quote safe r).
Proof. reflexivity. Qed.

Lemma escape_app c r : escape c r = escape c "" +:+ r.
Proof. reflexivity. Qed.

Lemma quote_no_space s : Py.contains " " s = false → quote "" s = enc s.
Proof.
  induction s as [|c s IH]; [done|].
  cbn [Py.contains]. intros [Hc Hs]%orb_false_elim.
  rewrite quote_cons. cbn [enc Py.contains]. rewrite IH by done.
  unfold enc_char. rewrite Hc, orb_false_r.
  destruct (always_safe c); [done|]. by rewrite escape_app.
Qed.

Lemma replace_escape c r :
  Py.replace " " "+" (escape c r) = escape c (Py.replace " " "+" r).
Proof. each_byte c; reflexivity. Qed.

Lemma quote_space s : Py.replace " " "+" (quote " " s) = enc s.
Proof.
  induction s as [|c s IH]; [done|].
  rewrite quote_cons. cbn [enc]. unfold enc_char.
  destruct (Py.ascii_eqb c " ") eqn:Hsp.
  - apply bool_decide_eq_true in Hsp as ->. simpl. by rewrite IH.
  - cbn [Py.contains]. rewrite (PyFacts.ascii_eqb_sym " " c), Hsp, !orb_false_r.
    destruct (always_safe c) eqn:Hsafe.
    + cbn [Py.replace]. by rewrite Hsp, IH.
    + by rewrite replace_escape, IH, escape_app.
Qed.

Lemma quote_plus_enc s : quote_plus s = enc s.
Proof.
  unfold quote_plus. destruct (Py.contains " " s) eqn:Hs.
  - apply quote_space.
  - by apply quote_no_space.
Qed.

Lemma unquote_plus_enc_char c r :
  unquote_plus (enc_char c +:+ r) = String c (unquote_plus r).
Proof. each_byte c; reflexivity. Qed.

Lemma enc_char_no_sep c :
  Py.contains "&" (enc_char c) = false ∧ Py.contains "=" (enc_char c) = false.
Proof. each_byte c; split; reflexivity. Qed.

Lemma unquote_plus_quote_plus s : unquote_plus (quote_plus s) = s.
Proof.
  rewrite quote_plus_enc. induction s as [|c s IH]; [done|].
  simpl. by rewrite unquote_plus_enc_char, IH.
Qed.

Lemma quote_plus_no_sep s :
  Py.contains "&" (quote_plus s) = false ∧ Py.contains "=" (quote_plus s) = false.
Proof.
  rewrite quote_plus_enc. induction s as [|c s [IH1 IH2]]; [done|].
  simpl. rewrite !PyFacts.contains_app, IH1, IH2.
  by destruct (enc_char_no_sep c) as [-> ->].
Qed.

Lemma parse_pair_sep a b :
  Py.contains "=" a = false →
  parse_pair (a +:+ String "=" b) = [(unquote_plus a, unquote_plus b)].
Proof.
  intros Ha.
  assert (parse_pair (a +:+ String "=" b)
          = match Py.split1 "=" (a +:+ String "=" b) with
            | [k; v] => [(unquote_plus k, unquote_plus v)]
            | [k] => [(unquote_plus k, "")]
            | _ => []
            end) as -> by by destruct a.
  by rewrite PyFacts.split1_app_sep.
Qed.

Lemma parse_pair_text kv : parse_pair (pair_text kv) = [kv].
Proof.
  destruct kv as [k v]. unfold pair_text.
  destruct (quote_plus_no_sep k) as [_ Hk].
  change (quote_plus (k, v).1 +:+ "=" +:+ quote_plus (k, v).2)
    with (quote_plus k +:+ String "=" (quote_plus v)).
  rewrite parse_pair_sep by done.
  by rewrite !unquote_plus_quote_plus.
Qed.

Lemma pair_text_no_amp kv : Py.contains "&" (pair_text kv) = false.
Proof.
  unfold pair_text. rewrite !PyFacts.contains_app.
  destruct (quote_plus_no_sep kv.1) as [-> _].
  by destruct (quote_plus_no_sep kv.2) as [-> _].
Qed.

Lemma parse_pairs l : (pair_text <$> l) ≫= parse_pair = l.
Proof.
  induction l as [|x l IH]; [done|].
  by rewrite fmap_cons, bind_cons, parse_pair_text, IH.
Qed.

(** Reading a query string back gives the items it was written from. *)
Lemma parse_qsl_urlencode l : parse_qsl (urlencode l) = l.
Proof.
  unfold parse_qsl, urlencode.
  destruct l as [|kv l]; [reflexivity|].
  rewrite fmap_cons, PyFacts.split_join.
  - rewrite <- fmap_cons. apply parse_pairs.
  - rewrite <- fmap_cons. apply Forall_fmap, Forall_forall.
    intros x _. apply pair_text_no_amp.
Qed.
End UrlFacts.

Module ADFSFacts.
Import ADFS.

Section Facts.
Context `{ExternalAuth} (conf : Config).


Lemma read_callback_no_code request :
  Dict.mem "error" (Dict.of_items (query request)) = false →
  Dict.get "code" (Dict.of_items (query request)) = None →
  read_callback request
  = ([], inl (HTTPForbidden
                ("ADFS: Invalid Callback response: " +:+ "'code'"
                   +:+ ": " +:+ repr_dict (Dict.of_items (query request))))).
Proof. intros He Hc. unfold read_callback. by rewrite He, Hc. Qed.

Lemma read_callback_code request code :
  Dict.mem "error" (Dict.of_items (query request)) = false →
  Dict.get "code" (Dict.of_items (query request)) = Some code →
  read_callback request = ([], inr code).
Proof. intros He Hc. unfold read_callback. by rewrite He, Hc. Qed.






End Facts.
End ADFSFacts.

Module AuthorizeFacts.
Import ADFS.

Section Facts.
Context `{ExternalAuth} (conf : Config).

(** What a returning [authenticate] went through. *)
Lemma authenticate_redirect_inv self request self' resp :
  authenticate conf self request = (self', inr resp) →
  ∃ domain_url uri,
    get_domain request = inr domain_url
    ∧ str_format (redirect_uri self) domain_url _service_name = inr uri
    ∧ self' = set_state (Base64.urlsafe_b64encode uri) (set_redirect_uri uri self)
    ∧ redirect (login_url conf self' (Base64.urlsafe_b64encode uri)) = inr resp.
Proof.
  unfold authenticate. intros Ha.
  destruct (get_domain request) as [e|domain_url] eqn:Hd; [by inversion Ha|].
  destruct (str_format _ _ _) as [e|uri] eqn:Hf; [by inversion Ha|].
  destruct (get_finish_redirect_url request) as [e|[]]; [by inversion Ha|].
  cbn zeta in Ha. destruct (redirect _) as [e|r] eqn:Hr; [by inversion Ha|].
  injection Ha as <- <-. exists domain_url, uri.
  repeat split; done.
Qed.

(** [authenticate] returns whenever its collaborators do. *)
Lemma authenticate_returns self request domain_url uri resp :
  get_domain request = inr domain_url →
  str_format (redirect_uri self) domain_url _service_name = inr uri →
  get_finish_redirect_url request = inr () →
  redirect
    (login_url conf
       (set_state (Base64.urlsafe_b64encode uri) (set_redirect_uri uri self))
       (Base64.urlsafe_b64encode uri)) = inr resp →
  authenticate conf self request
  = (set_state (Base64.urlsafe_b64encode uri) (set_redirect_uri uri self),
     inr resp).
Proof.
  intros Hd Hf Hg Hr. unfold authenticate. rewrite Hd, Hf, Hg. cbn zeta.
  change (redirect_uri (set_redirect_uri uri self)) with uri.
  by rewrite Hr.
Qed.

(** C1. Whenever [authenticate] returns a response, it is the redirect to
    a URL made of the authorize URI, [?] and a query string whose
    parameters include [client_id] with the configured client id,
    [redirect_uri] with the redirect URI of the backend (its configured
    template formatted with the domain of the request),
    [response_type=code], and a [state] that decodes, as URL-safe base64,
    to that same redirect URI. *)
Theorem authorize_url_parameters self request self' resp :
  authenticate conf self request = (self', inr resp) →
  ∃ domain_url url q state,
    get_domain request = inr domain_url
    ∧ str_format (redirect_uri self) domain_url _service_name
      = inr (redirect_uri self')
    ∧ redirect url = inr resp
    ∧ url = authorize_uri self +:+ "?" +:+ q
    ∧ Url.param "client_id" (Url.parse_qsl q) = Some (ADFS_CLIENT_ID conf)
    ∧ Url.param "redirect_uri" (Url.parse_qsl q) = Some (redirect_uri self')
    ∧ Url.param "response_type" (Url.parse_qsl q) = Some "code"
    ∧ Url.param "state" (Url.parse_qsl q) = Some state
    ∧ Base64.urlsafe_b64decode state = Some (redirect_uri self').
Proof.
  intros (domain_url & uri & Hd & Hf & -> & Hr)%authenticate_redirect_inv.
  exists domain_url, (login_url conf
                        (set_state (Base64.urlsafe_b64encode uri)
                           (set_redirect_uri uri self))
                        (Base64.urlsafe_b64encode uri)).
  eexists _, (Base64.urlsafe_b64encode uri).
  split; [done|]. split; [done|]. split; [done|].
  split; [reflexivity|].
  rewrite UrlFacts.parse_qsl_urlencode. simpl.
  repeat split; try done. apply Base64Facts.decode_encode.
Qed.
End Facts.
End AuthorizeFacts.

Module TokenFacts.
Import Token.

Section Facts.
Context `{Collaborators} (self : TokenAuth).

Lemma queryrow_some db n p t row err :
  queryrow db n p t = inr (Some row, err) →
  ∃ rows r ns ps ts,
    db = Table rows ∧ n = VStr ns ∧ p = VStr ps ∧ t = Some ts
    ∧ List.find (sql_where ns ps ts) rows = Some r ∧ row = select r.
Proof.
  unfold queryrow. intros Hq.
  destruct db as [e|e|rows]; try discriminate.
  destruct n as [| | |ns|], p as [| | |ps|]; try discriminate.
  destruct t as [ts|]; try discriminate.
  destruct (List.find _ rows) as [r|] eqn:Hf; try discriminate.
  simpl in Hq. inversion Hq; subst. by exists rows, r, ns, ps, ts.
Qed.

Lemma check_token_info_some request tenant payload tr row :
  check_token_info request tenant payload = (tr, inr (Some row)) →
  ∃ rows r ns ps ts,
    authdb request = Table rows
    ∧ payload !! "name" = Some (VStr ns) ∧ payload !! "partner" = Some (VStr ps)
    ∧ tenant = Some ts
    ∧ List.find (sql_where ns ps ts) rows = Some r ∧ row = select r.
Proof.
  unfold check_token_info. intros Hc.
  destruct (payload !! "name") as [n|] eqn:Hn; [|discriminate].
  destruct (payload !! "partner") as [p|] eqn:Hp; [|discriminate].
  unfold Effect.try, Effect.bind, Effect.call, Effect.ret in Hc.
  destruct (queryrow (authdb request) n p tenant) as [e|[res err]] eqn:Hq;
    simpl in Hc; [discriminate|].
  destruct err as [err|]; [discriminate|].
  destruct res as [row'|]; [|discriminate].
  inversion Hc; subst.
  apply queryrow_some in Hq as (rows & r & ns & ps & ts & -> & -> & -> & -> & Hf & ->).
  by exists rows, r, ns, ps, ts.
Qed.

Lemma find_where_live n p t rows r :
  List.find (sql_where n p t) rows = Some r →
  r ∈ rows ∧ pk_name r = n ∧ pk_partner r = p
  ∧ pk_enabled r = true ∧ pk_revoked r = false ∧ t ∈ pk_programs r.
Proof.
  intros [Hin Hw]%List.find_some. unfold sql_where in Hw.
  repeat (apply andb_prop in Hw as [Hw ?]).
  repeat match goal with
         | Hb : bool_decide _ = true |- _ => apply bool_decide_eq_true in Hb
         end.
  split; [by apply list_elem_of_In|].
  repeat split; try done. by apply negb_true_iff.
Qed.

Lemma build_identity_authenticated request tenant data tr info :
  build_identity self request tenant data = (tr, inr (Authenticated info)) →
  ∃ token,
    create_jwt (user_dict self data tenant) = inr token
    ∧ info = <["token" := VStr (tenant_text tenant +:+ ":" +:+ token)]>
               (user_dict self data tenant).
Proof.
  unfold build_identity, Effect.try, Effect.bind, Effect.lift, Effect.ret.
  destruct (create_user _) as [e|usr]; simpl; [discriminate|].
  destruct (create_jwt _) as [e|token]; simpl; [discriminate|].
  destruct (remember _ _ _ _) as [e|[]]; simpl; [discriminate|].
  intros [= <- <-]. by exists token.
Qed.

(** C6. Whenever [authenticate] succeeds, the table of the key lookup
    holds a record that is enabled, not revoked and lists the requested
    tenant among its programs, and the returned identity is built from
    that record: a revoked record never authenticates. *)
Theorem authenticate_only_live_records request tr info :
  authenticate self request = (tr, inr (Authenticated info)) →
  ∃ rows r tenant token,
    authdb request = Table rows ∧ r ∈ rows
    ∧ pk_enabled r = true ∧ pk_revoked r = false ∧ tenant ∈ pk_programs r
    ∧ info = <["token" := VStr (tenant +:+ ":" +:+ token)]>
               (user_dict self (select r) (Some tenant)).
Proof.
  unfold authenticate. intros Ha.
  destruct (get_payload self request) as [[tenant [token|]]|]; try discriminate.
  destruct token as [|c token]; [discriminate|].
  unfold Effect.bind, Effect.lift in Ha.
  destruct (jwt_decode _) as [e|payload]; [discriminate|].
  destruct (check_token_info request tenant payload) as [tc [e|[data|]]] eqn:Hc;
    try discriminate.
  destruct (build_identity self request tenant data) as [tb rb] eqn:Hb.
  inversion Ha; subst.
  apply check_token_info_some in Hc
    as (rows & r & ns & ps & ts & Hdb & _ & _ & -> & Hf & ->).
  apply find_where_live in Hf as (Hin & _ & _ & Hen & Hrev & Hprog).
  apply build_identity_authenticated in Hb as (tok & _ & ->).
  by exists rows, r, ts, tok.
Qed.

Lemma check_token_info_false request tenant payload :
  lookup_fails request tenant payload →
  Effect.result (check_token_info request tenant payload) = inr None.
Proof.
  unfold check_token_info.
  intros [Hn|Hp|err Hdb|err Hdb|rows Hdb Hnone].
  - by rewrite Hn.
  - rewrite Hp. by destruct (payload !! "name").
  - destruct (payload !! "name") as [n|], (payload !! "partner") as [p|];
      try done.
    by rewrite Hdb.
  - destruct (payload !! "name") as [n|], (payload !! "partner") as [p|];
      try done.
    by rewrite Hdb.
  - destruct (payload !! "name") as [n|] eqn:Hn; [|done].
    destruct (payload !! "partner") as [p|] eqn:Hp; [|done].
    rewrite Hdb. unfold queryrow.
    destruct n as [| | |n|], p as [| | |p|]; try done.
    destruct tenant as [t|]; [|done].
    by rewrite (Hnone n p t).
Qed.

(** C8. For a request whose token decodes, every way the key lookup comes
    back empty-handed (the payload lacks [name] or [partner], the query
    raises, the query returns an error, no record matches) ends in the
    same [InvalidAuth] with status 401 and a message that depends on the
    token only. *)
Theorem lookup_failures_are_one_rejection request tenant c token payload :
  get_payload self request = Some (tenant, Some (String c token)) →
  jwt_decode (String c token) = inr payload →
  lookup_fails request tenant payload →
  Effect.result (authenticate self request)
  = inl (InvalidAuth ("Invalid Session: " +:+ String c token) 401).
Proof.
  intros Hp Hj Hl. apply check_token_info_false in Hl.
  unfold authenticate. rewrite Hp.
  unfold Effect.bind, Effect.lift. rewrite Hj.
  destruct (check_token_info request tenant payload) as [tc rc].
  simpl in Hl. by subst rc.
Qed.

(** C10. When the token decodes and the key lookup finds a record, but
    [create_user], [create_jwt] or [remember] raises, [authenticate]
    raises nothing and returns [False]. *)
Theorem late_failure_returns_false request tenant c token payload data :
  get_payload self request = Some (tenant, Some (String c token)) →
  jwt_decode (String c token) = inr payload →
  Effect.result (check_token_info request tenant payload) = inr (Some data) →
  identity_step_raises self request tenant data →
  Effect.result (authenticate self request) = inr ReturnedFalse.
Proof.
  intros Hp Hj Hc Hs. unfold authenticate. rewrite Hp.
  unfold Effect.bind, Effect.lift. rewrite Hj.
  destruct (check_token_info request tenant payload) as [tc rc].
  simpl in Hc. subst rc.
  unfold build_identity, Effect.try, Effect.bind, Effect.lift, Effect.ret.
  destruct Hs as [e He|usr e Hu He|usr tok e Hu Ht He].
  - by rewrite He.
  - by rewrite Hu, He.
  - by rewrite Hu, Ht, He.
Qed.

(** C9 (amended). For a request already flagged authenticated, the first
    thing the middleware does is call the downstream handler, with the
    request whose [user] was reset to [None] and whose headers, items and
    database are those it came with; when the handler returns, its
    response is the result and nothing else was called. *)
Theorem authenticated_request_passes_with_user_reset request :
  items request !! "authenticated" = Some (VBool true) →
  ∃ rest,
    Effect.trace (middleware self request)
    = EvHandler (set_user None request) :: rest
    ∧ headers (set_user None request) = headers request
    ∧ items (set_user None request) = items request
    ∧ authdb (set_user None request) = authdb request
    ∧ user (set_user None request) = None
    ∧ (∀ resp, handler (set_user None request) = inr resp →
               middleware self request
               = ([EvHandler (set_user None request)], inr resp)).
Proof.
  intros Hflag. unfold middleware. simpl.
  rewrite bool_decide_eq_true_2 by done.
  unfold Effect.try, Effect.call.
  destruct (handler (set_user None request)) as [e|resp] eqn:Hh.
  - destruct e; simpl;
      try (eexists; repeat split; try done; by intros ? [=]).
    destruct (intercept self (set_user None request)) as [ti ri]. simpl.
    eexists; repeat split; try done; by intros ? [=].
  - eexists. repeat split; try done. by intros ? [= ->].
Qed.

(** C4 (what the code does). For a request that is not flagged
    authenticated and whose Authorization header does not parse (no
    credential after the scheme, or another scheme), the middleware calls
    nothing and raises [TypeError], which is no HTTP response:
    [get_payload] returned [None] and the middleware unpacks it outside
    any [try]. *)
Theorem middleware_unpacks_none request header e :
  headers request !! "Authorization" = Some header →
  parse_authorization self header = inl e →
  items request !! "authenticated" ≠ Some (VBool true) →
  middleware self request
  = ([], inl (TypeError "cannot unpack non-iterable NoneType object"))
  ∧ is_http (TypeError "cannot unpack non-iterable NoneType object") = false.
Proof.
  intros Hh Hp Hflag. split; [|done]. unfold middleware. simpl.
  rewrite bool_decide_eq_false_2 by done.
  unfold intercept, get_payload. simpl. by rewrite Hh, Hp.
Qed.
End Facts.
End TokenFacts.

Module TokenParse.
Import Py Token PyFacts StripFacts SplitFacts.

Section Facts.
Context (self : TokenAuth).

Lemma parse_authorization_split header cred :
  Py.strip header = scheme self +:+ " " +:+ cred →
  Py.contains " " (scheme self) = false →
  parse_authorization self header
  = inr match unpack2 (Py.split ":" cred) with
        | Some (tenant, token) => (Some tenant, Some token)
        | None => (None, Some cred)
        end.
Proof.
  intros Hs Hsch. unfold parse_authorization. rewrite Hs.
  change (scheme self +:+ " " +:+ cred) with (scheme self +:+ String " " cred).
  rewrite split1_app_sep by done. simpl.
  rewrite bool_decide_eq_false_2 by naive_solver.
  by destruct (unpack2 (Py.split ":" cred)) as [[??]|].
Qed.

(** C5 (amended). For an Authorization header that reads, once stripped,
    as the configured scheme, a space and a credential: a credential with
    exactly one colon is split around it into tenant and token; any other
    credential, with no colon or with several, is the token as a whole,
    with no tenant. *)
Theorem get_payload_splits_single_colon request header cred :
  headers request !! "Authorization" = Some header →
  Py.strip header = scheme self +:+ " " +:+ cred →
  Py.contains " " (scheme self) = false →
  (count ":" cred = 1 →
   ∃ tenant token,
     cred = tenant +:+ ":" +:+ token
     ∧ Py.contains ":" tenant = false ∧ Py.contains ":" token = false
     ∧ get_payload self request = Some (Some tenant, Some token))
  ∧ (count ":" cred ≠ 1 →
     get_payload self request = Some (None, Some cred)).
Proof.
  intros Hh Hs Hsch. unfold get_payload. rewrite Hh.
  rewrite (parse_authorization_split _ _ Hs Hsch). split.
  - intros (a & b & -> & Ha & Hb & Hsp)%count_1_split.
    exists a, b. by rewrite Hsp.
  - intros Hc. pose proof (split_length ":" cred) as Hl.
    destruct (Py.split ":" cred) as [|a [|b [|]]]; try done.
    simpl in Hl. lia.
Qed.
End Facts.
End TokenParse.

Module RoundTrip.
Import Py Token PyFacts StripFacts SplitFacts TokenFacts TokenParse.



Section Facts.
Context `{Collaborators} (self : TokenAuth).



End Facts.
End RoundTrip.

Module ADFSExamples.
Import ADFS ADFSSample ADFSFacts AuthorizeFacts.

Definition logged_in : Backend :=
  set_state "aHR0cHM6Ly9hcHAuZXhhbXBsZS5jb20vYXV0aC9hZGZzL2NhbGxiYWNr"
    (set_redirect_uri "https://app.example.com/auth/adfs/callback" backend).

Definition sample_url : string :=
  "https://sts.example.com/adfs/oauth2/authorize/?client_id=client-1&response_type=code&redirect_uri=https%3A%2F%2Fapp.example.com%2Fauth%2Fadfs%2Fcallback&resource=urn%3Anavigator%3Aapi&response_mode=query&state=aHR0cHM6Ly9hcHAuZXhhbXBsZS5jb20vYXV0aC9hZGZzL2NhbGxiYWNr&scope=%5B%27openid%27%5D".

Example authenticate_sample :
  authenticate (H:=rejecting) conf backend login
  = (logged_in, inr (HTTPFound sample_url)).
Proof. vm_compute. reflexivity. Qed.

Lemma authorize_url_parameters_witness :
  ∃ domain_url url q state,
    get_domain (ExternalAuth:=rejecting) login = inr domain_url
    ∧ str_format (ExternalAuth:=rejecting) (redirect_uri backend) domain_url
        _service_name = inr (redirect_uri logged_in)
    ∧ redirect (ExternalAuth:=rejecting) url = inr (HTTPFound sample_url)
    ∧ url = authorize_uri backend +:+ "?" +:+ q
    ∧ Url.param "client_id" (Url.parse_qsl q) = Some (ADFS_CLIENT_ID conf)
    ∧ Url.param "redirect_uri" (Url.parse_qsl q) = Some (redirect_uri logged_in)
    ∧ Url.param "response_type" (Url.parse_qsl q) = Some "code"
    ∧ Url.param "state" (Url.parse_qsl q) = Some state
    ∧ Base64.urlsafe_b64decode state = Some (redirect_uri logged_in).
Proof.
  apply (authorize_url_parameters (H:=rejecting) conf backend login logged_in
           (HTTPFound sample_url)).
  vm_compute. reflexivity.
Defined.


(** A callback without [code] is answered from the same handler. *)
Example callback_without_code :
  (auth_callback (H:=rejecting) conf backend login).2
  = ([], inl (HTTPForbidden "ADFS: Invalid Callback response: 'code': {}")).
Proof. vm_compute. reflexivity. Qed.

End ADFSExamples.

Module TokenExamples.
Import Py Token TokenSample TokenFacts TokenParse RoundTrip SplitFacts.

Example first_request_authenticates :
  Effect.result
    (authenticate (H:=working) backend (with_header "Bearer acme:eyJ.first.sig"))
  = inr (Authenticated (<["token" := VStr "acme:eyJ.issued.sig"]> identity)).
Proof. vm_compute. reflexivity. Qed.

(** The same key once revoked, still enabled and still listing the
    program. *)
Example revoked_key_is_rejected :
  Effect.result
    (authenticate (H:=working) backend
       {| headers := {[ "Authorization" := "Bearer acme:eyJ.first.sig" ]};
          items := ∅; user := None;
          authdb := Table [ {| pk_name := "svc"; pk_partner := "acme-corp";
                               pk_grants := ["read"]; pk_programs := ["acme"];
                               pk_enabled := true; pk_revoked := true |} ] |})
  = inl (InvalidAuth "Invalid Session: eyJ.first.sig" 401).
Proof. vm_compute. reflexivity. Qed.

(** A bare token leaves the tenant undetermined, and the query then
    compares [NULL] with the programs: no record is found. *)
Example bare_token_is_rejected :
  Effect.result
    (authenticate (H:=working) backend (with_header "Bearer eyJ.first.sig"))
  = inl (InvalidAuth "Invalid Session: eyJ.first.sig" 401).
Proof. vm_compute. reflexivity. Qed.

Lemma authenticate_only_live_records_witness :
  ∃ rows r tenant token,
    authdb (with_header "Bearer acme:eyJ.first.sig") = Table rows ∧ r ∈ rows
    ∧ pk_enabled r = true ∧ pk_revoked r = false ∧ tenant ∈ pk_programs r
    ∧ <["token" := VStr "acme:eyJ.issued.sig"]> identity
      = <["token" := VStr (tenant +:+ ":" +:+ token)]>
          (user_dict backend (select r) (Some tenant)).
Proof.
  apply (authenticate_only_live_records (H:=working) backend
           (with_header "Bearer acme:eyJ.first.sig")
           [EvQuery (VStr "svc") (VStr "acme-corp") (Some "acme")]).
  vm_compute. reflexivity.
Defined.

Lemma lookup_failures_are_one_rejection_witness :
  Effect.result
    (authenticate (H:=working) backend (with_header "Bearer acme:eyJ.anonymous.sig"))
  = inl (InvalidAuth "Invalid Session: eyJ.anonymous.sig" 401).
Proof.
  apply (lookup_failures_are_one_rejection (H:=working) backend
           (with_header "Bearer acme:eyJ.anonymous.sig") (Some "acme")
           "e" "yJ.anonymous.sig" {[ "name" := VStr "svc" ]}).
  - vm_compute. reflexivity.
  - reflexivity.
  - apply no_partner. reflexivity.
Defined.

Lemma late_failure_returns_false_witness :
  Effect.result
    (authenticate (H:=forgetful) backend (with_header "Bearer acme:eyJ.first.sig"))
  = inr ReturnedFalse.
Proof.
  apply (late_failure_returns_false (H:=forgetful) backend
           (with_header "Bearer acme:eyJ.first.sig") (Some "acme")
           "e" "yJ.first.sig" first_payload (select key)).
  - vm_compute. reflexivity.
  - reflexivity.
  - vm_compute. reflexivity.
  - eapply (remember_raises (H:=forgetful)); vm_compute; reflexivity.
Defined.

Lemma middleware_unpacks_none_witness :
  middleware (H:=working) backend (with_header "Basic dXNlcjpwdw==")
  = ([], inl (TypeError "cannot unpack non-iterable NoneType object"))
  ∧ is_http (TypeError "cannot unpack non-iterable NoneType object") = false.
Proof.
  apply (middleware_unpacks_none (H:=working) backend
           (with_header "Basic dXNlcjpwdw==") "Basic dXNlcjpwdw=="
           (AuthException "Invalid Authorization Scheme" 400)).
  - reflexivity.
  - vm_compute. reflexivity.
  - vm_compute. discriminate.
Defined.

(** A header without a credential ends the same way. *)
Example middleware_bare_scheme :
  middleware (H:=working) backend (with_header "Bearer")
  = ([], inl (TypeError "cannot unpack non-iterable NoneType object")).
Proof. vm_compute. reflexivity. Qed.

(** The sibling path: [authenticate] turns the same fault into a 400. *)
Example authenticate_wrong_scheme :
  authenticate (H:=working) backend (with_header "Basic dXNlcjpwdw==")
  = ([], inl (AuthException "cannot unpack non-iterable NoneType object" 400)).
Proof. vm_compute. reflexivity. Qed.

Lemma authenticated_request_passes_with_user_reset_witness :
  ∃ rest,
    Effect.trace (middleware (H:=working) backend flagged)
    = EvHandler (set_user None flagged) :: rest
    ∧ headers (set_user None flagged) = headers flagged
    ∧ items (set_user None flagged) = items flagged
    ∧ authdb (set_user None flagged) = authdb flagged
    ∧ user (set_user None flagged) = None
    ∧ (∀ resp, handler (Collaborators:=working) (set_user None flagged) = inr resp →
               middleware (H:=working) backend flagged
               = ([EvHandler (set_user None flagged)], inr resp)).
Proof.
  apply (authenticated_request_passes_with_user_reset (H:=working) backend flagged).
  reflexivity.
Defined.

(** C9, as stated, fails: the handler does not get the request it came
    with. *)
Lemma flagged_request_is_changed :
  items flagged !! "authenticated" = Some (VBool true)
  ∧ ¬ ∃ rest,
        Effect.trace (middleware (H:=working) backend flagged)
        = EvHandler flagged :: rest.
Proof.
  split; [reflexivity|]. intros [rest Hr]. vm_compute in Hr. discriminate Hr.
Qed.

Lemma get_payload_splits_single_colon_witness :
  (count ":" "acme:eyJ" = 1 →
   ∃ tenant token,
     "acme:eyJ" = tenant +:+ ":" +:+ token
     ∧ Py.contains ":" tenant = false ∧ Py.contains ":" token = false
     ∧ get_payload backend (with_header " Bearer acme:eyJ")
       = Some (Some tenant, Some token))
  ∧ (count ":" "acme:eyJ" ≠ 1 →
     get_payload backend (with_header " Bearer acme:eyJ")
     = Some (None, Some "acme:eyJ")).
Proof.
  apply (get_payload_splits_single_colon backend
           (with_header " Bearer acme:eyJ") " Bearer acme:eyJ" "acme:eyJ").
  - reflexivity.
  - vm_compute. reflexivity.
  - reflexivity.
Defined.

Example payload_with_tenant :
  get_payload backend (with_header "Bearer acme:eyJ")
  = Some (Some "acme", Some "eyJ").
Proof. vm_compute. reflexivity. Qed.

Example payload_without_tenant :
  get_payload backend (with_header "Bearer eyJ") = Some (None, Some "eyJ").
Proof. vm_compute. reflexivity. Qed.

(** C5, as stated, fails: with two colons nothing is split. *)
Lemma second_colon_is_not_split :
  Py.strip "Bearer a:b:c" = scheme backend +:+ " " +:+ "a:b:c"
  ∧ split_first "a:b:c" = (Some "a", Some "b:c")
  ∧ get_payload backend (with_header "Bearer a:b:c") = Some (None, Some "a:b:c")
  ∧ get_payload backend (with_header "Bearer a:b:c") ≠ Some (split_first "a:b:c").
Proof. vm_compute. repeat split; try reflexivity. discriminate. Qed.


End TokenExamples.

(** * Further properties *)

Module ADFSMore.
Import ADFS ADFSSetup ADFSFacts AuthorizeFacts.

(** Lookup and assignment in an ordered dict. *)
Lemma dict_get_set_eq k v d : Dict.get k (Dict.set k v d) = Some v.
Proof.
  induction d as [|[k' v'] d IH]; simpl.
  - by rewrite bool_decide_eq_true_2.
  - case_bool_decide as Hk; simpl.
    + by rewrite bool_decide_eq_true_2.
    + by rewrite bool_decide_eq_false_2.
Qed.

Lemma dict_get_set_ne k k' v d :
  k ≠ k' → Dict.get k' (Dict.set k v d) = Dict.get k' d.
Proof.
  intros Hne. induction d as [|[k2 v2] d IH]; simpl.
  - by rewrite bool_decide_eq_false_2.
  - case_bool_decide as Hk; simpl.
    + subst k2. by rewrite !bool_decide_eq_false_2.
    + by rewrite IH.
Qed.

Lemma of_items_snoc items k v :
  Dict.of_items (items ++ [(k, v)]) = Dict.set k v (Dict.of_items items).
Proof. unfold Dict.of_items. by rewrite foldl_app. Qed.

(** [dict(items)[k]] is the last value the items give to [k]. *)
Lemma dict_get_of_items k items :
  Dict.get k (Dict.of_items items) = Dict.get k (reverse items).
Proof.
  induction items as [|[k' v'] items IH] using rev_ind; [done|].
  rewrite of_items_snoc, reverse_snoc. simpl.
  case_bool_decide as Hk.
  - subst k'. apply dict_get_set_eq.
  - by rewrite dict_get_set_ne.
Qed.

(** Membership in an explicit trace, case by case. *)
Ltac trace_cases H :=
  repeat first
    [ apply elem_of_nil in H; destruct H
    | apply elem_of_app in H as [H|H]
    | apply elem_of_cons in H as [H|H]; [try discriminate H|] ].

Section Facts.
Context `{ExternalAuth} (conf : Config).

(** X1. Whenever [authenticate] returns, the query of the URL it redirects
    to reads back as exactly seven parameters, in the order of the dict:
    [client_id], [response_type=code], [redirect_uri], [resource] (the
    default resource), [response_mode=query], [state] and [scope]; and the
    state kept on the object is the one sent. *)
Theorem login_query_reads_back self request self' resp :
  authenticate conf self request = (self', inr resp) →
  ∃ q,
    redirect (authorize_uri self +:+ "?" +:+ q) = inr resp
    ∧ Url.parse_qsl q
      = [ ("client_id", ADFS_CLIENT_ID conf);
          ("response_type", "code");
          ("redirect_uri", redirect_uri self');
          ("resource", ADFS_DEFAULT_RESOURCE conf);
          ("response_mode", "query");
          ("state", Base64.urlsafe_b64encode (redirect_uri self'));
          ("scope", ADFS_SCOPES conf) ]
    ∧ state self' = Some (Base64.urlsafe_b64encode (redirect_uri self')).
Proof.
  intros (domain_url & uri & Hd & Hf & -> & Hr)%authenticate_redirect_inv.
  eexists. split; [exact Hr|]. split; [|done].
  apply UrlFacts.parse_qsl_urlencode.
Qed.

(** X2. Every way [authenticate] raises: what [get_domain] or
    [str.format] raises escapes as it is and leaves the object untouched;
    what [get_finish_redirect_url] raises escapes after the redirect URI
    was overwritten with its formatted value; a failure of the redirect
    itself is the only one turned into an [AuthException], with both
    assignments done. *)
Theorem authenticate_failures self request self' e :
  authenticate conf self request = (self', inl e) →
  (get_domain request = inl e ∧ self' = self)
  ∨ (∃ domain_url,
       get_domain request = inr domain_url
       ∧ str_format (redirect_uri self) domain_url _service_name = inl e
       ∧ self' = self)
  ∨ (∃ domain_url uri,
       get_domain request = inr domain_url
       ∧ str_format (redirect_uri self) domain_url _service_name = inr uri
       ∧ get_finish_redirect_url request = inl e
       ∧ self' = set_redirect_uri uri self)
  ∨ (∃ domain_url uri err,
       get_domain request = inr domain_url
       ∧ str_format (redirect_uri self) domain_url _service_name = inr uri
       ∧ get_finish_redirect_url request = inr ()
       ∧ redirect (login_url conf self' (Base64.urlsafe_b64encode uri)) = inl err
       ∧ e = AuthException
               ("Client doesn't have info for ADFS Authentication: " +:+ str err)
       ∧ self' = set_state (Base64.urlsafe_b64encode uri)
                   (set_redirect_uri uri self)).
Proof.
  unfold authenticate. intros Ha.
  destruct (get_domain request) as [e1|domain_url] eqn:Hd.
  { injection Ha as <- <-. by left. }
  destruct (str_format _ _ _) as [e1|uri] eqn:Hf.
  { injection Ha as <- <-. right; left. by exists domain_url. }
  destruct (get_finish_redirect_url request) as [e1|[]] eqn:Hg.
  { injection Ha as <- <-. right; right; left. by exists domain_url, uri. }
  cbn zeta in Ha. destruct (redirect _) as [err|r] eqn:Hr; [|discriminate].
  injection Ha as <- <-. right; right; right. by exists domain_url, uri, err.
Qed.




(** X4. A callback with neither [error] nor [code] in its query is
    rejected before any call is made, with the repr of the missing key in
    the reason. *)
Theorem callback_without_code_is_invalid self request domain_url uri :
  get_domain request = inr domain_url →
  str_format (redirect_uri self) domain_url _service_name = inr uri →
  Dict.get "error" (reverse (query request)) = None →
  Dict.get "code" (reverse (query request)) = None →
  auth_callback conf self request
  = (set_redirect_uri uri self,
     ([], inl (HTTPForbidden
                 ("ADFS: Invalid Callback response: 'code': "
                    +:+ repr_dict (Dict.of_items (query request)))))).
Proof.
  intros Hd Hf He Hc. unfold auth_callback. rewrite Hd, Hf. cbn zeta.
  unfold finish_callback. rewrite read_callback_no_code; [done| |].
  - unfold Dict.mem. rewrite dict_get_of_items, He.
    apply bool_decide_eq_false. by intros [? ?].
  - by rewrite dict_get_of_items.
Qed.

Lemma bind_inv {A B} (m : M A) (f : A → M B) t r :
  Effect.bind m f = (t, r) →
  (∃ e, m = (t, inl e) ∧ r = inl e)
  ∨ ∃ t1 a t2, m = (t1, inr a) ∧ f a = (t2, r) ∧ t = t1 ++ t2.
Proof.
  destruct m as [t1 [e1|a]]; simpl.
  - intros [= <- <-]. left. by exists e1.
  - destruct (f a) as [t2 r2] eqn:Hf. intros [= <- <-]. right.
    by exists t1, a, t2.
Qed.

Lemma read_callback_trace request : Effect.trace (read_callback request) = [].
Proof.
  unfold read_callback. destruct (Dict.mem _ _); [done|].
  by destruct (Dict.get _ _).
Qed.

Lemma read_callback_inr request t code :
  read_callback request = (t, inr code) →
  Dict.mem "error" (Dict.of_items (query request)) = false
  ∧ Dict.get "code" (Dict.of_items (query request)) = Some code.
Proof.
  unfold read_callback. destruct (Dict.mem _ _); [done|].
  destruct (Dict.get _ _) as [c|]; [|done]. by intros [= <- <-].
Qed.

Lemma exchange_code_inv self code t r :
  exchange_code conf self code = (t, r) →
  t = [exchange_event conf self code]
  ∧ ∀ tok ty, r = inr (tok, ty) →
      ∃ exchange,
        post (_token_uri self) (token_params conf code) token_headers = inr exchange
        ∧ exchange !! "error" = None
        ∧ exchange !! "access_token" = Some tok
        ∧ exchange !! "token_type" = Some ty.
Proof.
  unfold exchange_code, Effect.try, Effect.bind, Effect.call, item.
  destruct (post _ _ _) as [e|exchange] eqn:Hp; simpl.
  { intros [= <- <-]. by split. }
  case_bool_decide as Herr; simpl.
  { intros [= <- <-]. by split. }
  assert (exchange !! "error" = None) as Hnone.
  { destruct (exchange !! "error") eqn:E; [|done]. destruct Herr. eauto. }
  destruct (exchange !! "access_token") as [tok|] eqn:Ha; simpl.
  2: { intros [= <- <-]. by split. }
  destruct (exchange !! "token_type") as [ty|] eqn:Ht; simpl.
  2: { intros [= <- <-]. by split. }
  intros [= <- <-]. split; [done|]. intros ?? [= <- <-]. by exists exchange.
Qed.

Lemma decode_token_inv self tok t r :
  decode_token conf self tok = (t, r) →
  (∀ ev, ev ∈ t → ev = EvGetPublicKey tok ∨ ev = EvJwtDecode tok)
  ∧ ∀ claims, r = inr claims →
      t = [EvGetPublicKey tok; EvJwtDecode tok]
      ∧ ∃ key,
          get_public_key tok (tenant_id self) (discovery_oid_uri self) = inr key
          ∧ jwt_decode tok key (ADFS_DEFAULT_RESOURCE conf) (ADFS_ISSUER conf)
            = inr claims.
Proof.
  unfold decode_token, Effect.try, Effect.bind, Effect.call.
  destruct (get_public_key _ _ _) as [e|key] eqn:Hk; simpl.
  { intros [= <- <-]. split; [|done]. intros ev Hev. trace_cases Hev; auto. }
  destruct (jwt_decode _ _ _ _) as [e|claims] eqn:Hj; simpl.
  { intros [= <- <-]. split; [|done]. intros ev Hev. trace_cases Hev; auto. }
  intros [= <- <-]. split; [intros ev Hev; trace_cases Hev; auto|].
  intros ? [= <-]. split; [done|]. by exists key.
Qed.

(** X5. [build_user_info] is called for a token only after that token
    came out of an exchange without [error], its key was resolved and
    [jwt.decode] accepted it: no identity is built from an unverified
    token. *)
Theorem identity_only_from_verified_token self request tok :
  EvBuildUserInfo tok ∈ Effect.trace (auth_callback conf self request).2 →
  ∃ code exchange key claims,
    Dict.get "code" (Dict.of_items (query request)) = Some code
    ∧ Dict.mem "error" (Dict.of_items (query request)) = false
    ∧ post (_token_uri self) (token_params conf code) token_headers = inr exchange
    ∧ exchange !! "error" = None
    ∧ exchange !! "access_token" = Some tok
    ∧ get_public_key tok (tenant_id self) (discovery_oid_uri self) = inr key
    ∧ jwt_decode tok key (ADFS_DEFAULT_RESOURCE conf) (ADFS_ISSUER conf)
      = inr claims.
Proof.
  unfold auth_callback.
  destruct (get_domain request) as [e|domain_url]; [by intros ?%elem_of_nil|].
  destruct (str_format _ _ _) as [e|uri]; [by intros ?%elem_of_nil|].
  cbn zeta. simpl. set (self' := set_redirect_uri uri self).
  destruct (finish_callback conf self' request) as [t r] eqn:Hfin.
  unfold Effect.trace. simpl. intros Hin. unfold finish_callback in Hfin.
  pose proof (read_callback_trace request) as Hrt.
  apply bind_inv in Hfin as [(e & Hr & _)|(t1 & code & t2 & Hr & Hfin & ->)].
  { rewrite Hr in Hrt. simpl in Hrt. subst t. by apply elem_of_nil in Hin. }
  rewrite Hr in Hrt. simpl in Hrt. subst t1.
  apply read_callback_inr in Hr as [Herr Hcode].
  apply bind_inv in Hfin as [(e & Hx & _)|(t3 & [tok' ty] & t4 & Hx & Hfin & ->)].
  { apply exchange_code_inv in Hx as [-> _]. trace_cases Hin. }
  apply exchange_code_inv in Hx as [-> Hx].
  destruct (Hx tok' ty eq_refl) as (exchange & Hp & Hne & Hat & Hty).
  apply bind_inv in Hfin as [(e & Hdec & _)|(t5 & claims & t6 & Hdec & Hfin & ->)].
  { apply decode_token_inv in Hdec as [Hev _].
    apply elem_of_app in Hin as [Hin|Hin]; [by apply elem_of_nil in Hin|].
    apply elem_of_cons in Hin as [Hin|Hin]; [discriminate|].
    by destruct (Hev _ Hin). }
  apply decode_token_inv in Hdec as [_ Hdec].
  destruct (Hdec claims eq_refl) as (-> & key & Hk & Hj).
  assert (tok = tok') as <-.
  { apply bind_inv in Hfin as [(e & Hu & _)|(t7 & d & t8 & Hu & Hfin & ->)].
    - revert Hu Hin. unfold user_information, Effect.try, Effect.bind, Effect.call.
      destruct (get _ _ _) as [?|?]; simpl;
        (destruct (build_user_info _ _) as [?|[??]]; simpl;
         [|destruct (validate_user_info _ _ _ _) as [?|?]; simpl]);
        intros [= <- <-] Hin; trace_cases Hin; congruence.
    - injection Hfin as <- <-. revert Hu Hin.
      unfold user_information, Effect.try, Effect.bind, Effect.call.
      destruct (get _ _ _) as [?|?]; simpl;
        (destruct (build_user_info _ _) as [?|[??]]; simpl;
         [|destruct (validate_user_info _ _ _ _) as [?|?]; simpl]);
        intros [= <- <-] Hin; trace_cases Hin; congruence. }
  by exists code, exchange, key, claims.
Qed.

(** X6. The whole callback when every step succeeds: one post, the key,
    the decoding, the userinfo call, the identity and its validation, in
    that order. The identity is built from the answer of the userinfo
    endpoint when there is one, from the claims of the token when that
    call raises; the final redirect carries the [token] entry of the
    validated data, if any, and always the type [Bearer]. *)
Theorem callback_success self request domain_url uri code exchange tok ty key
    claims userdata uid data :
  get_domain request = inr domain_url →
  str_format (redirect_uri self) domain_url _service_name = inr uri →
  Dict.mem "error" (Dict.of_items (query request)) = false →
  Dict.get "code" (Dict.of_items (query request)) = Some code →
  post (_token_uri self) (token_params conf code) token_headers = inr exchange →
  exchange !! "error" = None →
  exchange !! "access_token" = Some tok →
  exchange !! "token_type" = Some ty →
  get_public_key tok (tenant_id self) (discovery_oid_uri self) = inr key →
  jwt_decode tok key (ADFS_DEFAULT_RESOURCE conf) (ADFS_ISSUER conf) = inr claims →
  build_user_info
    (match get (userinfo_uri self) tok ty with inr info => info | inl _ => claims end)
    tok = inr (userdata, uid) →
  validate_user_info request uid userdata tok = inr data →
  auth_callback conf self request
  = (set_redirect_uri uri self,
     ([ exchange_event conf self code; EvGetPublicKey tok; EvJwtDecode tok;
        EvUserInfo (userinfo_uri self) tok; EvBuildUserInfo tok;
        EvValidateUserInfo uid ],
      inr (home_redirect request (data ≫= (λ d, d !! "token")) "Bearer"))).
Proof.
  intros Hd Hf He Hc Hp Hne Hat Hty Hk Hj Hb Hv.
  unfold auth_callback. rewrite Hd, Hf. cbn zeta.
  unfold finish_callback. rewrite (read_callback_code _ _ He Hc).
  unfold Effect.bind at 1. simpl.
  unfold exchange_code, Effect.try, Effect.bind, Effect.call, item.
  simpl. rewrite Hp. simpl.
  rewrite bool_decide_eq_false_2 by (rewrite Hne; by intros [? ?]).
  rewrite Hat, Hty. simpl.
  unfold decode_token, Effect.try, Effect.bind, Effect.call. simpl.
  rewrite Hk. simpl. rewrite Hj. simpl.
  unfold user_information, Effect.try, Effect.bind, Effect.call. simpl.
  destruct (get (userinfo_uri self) tok ty) as [e|info]; simpl;
    rewrite Hb; simpl; rewrite Hv; done.
Qed.

(** X7. An exchange response with neither [error] nor the token, or
    without the token type, is rejected after the post with the [KeyError]
    of the missing key in the reason. *)
Theorem exchange_without_token_is_rejected self request domain_url uri code
    exchange :
  get_domain request = inr domain_url →
  str_format (redirect_uri self) domain_url _service_name = inr uri →
  Dict.mem "error" (Dict.of_items (query request)) = false →
  Dict.get "code" (Dict.of_items (query request)) = Some code →
  post (_token_uri self) (token_params conf code) token_headers = inr exchange →
  exchange !! "error" = None →
  exchange !! "access_token" = None ∨ exchange !! "token_type" = None →
  ∃ missing,
    (missing = "access_token" ∨ missing = "token_type")
    ∧ exchange !! missing = None
    ∧ auth_callback conf self request
      = (set_redirect_uri uri self,
         ([exchange_event conf self code],
          inl (HTTPForbidden
                 ("Invalid Response from Token Server '" +:+ missing +:+ "'.")))).
Proof.
  intros Hd Hf He Hc Hp Hne Hmiss.
  unfold auth_callback. rewrite Hd, Hf. cbn zeta.
  unfold finish_callback. rewrite (read_callback_code _ _ He Hc).
  unfold Effect.bind at 1. simpl.
  unfold exchange_code, Effect.try, Effect.bind, Effect.call, item.
  simpl. rewrite Hp. simpl.
  rewrite bool_decide_eq_false_2 by (rewrite Hne; by intros [? ?]).
  destruct (exchange !! "access_token") as [tok|] eqn:Hat; simpl.
  - destruct Hmiss as [?|Hty]; [done|]. rewrite Hty. simpl.
    exists "token_type". split; [by right|]. by split.
  - exists "access_token". split; [by left|]. by split.
Qed.

(** X8. When the query repeats a parameter, [dict(...)] keeps the last
    value: the code posted to the token endpoint is the last [code] of the
    query. *)
Theorem last_code_is_exchanged self request domain_url uri code :
  get_domain request = inr domain_url →
  str_format (redirect_uri self) domain_url _service_name = inr uri →
  Dict.get "error" (reverse (query request)) = None →
  Dict.get "code" (reverse (query request)) = Some code →
  ∃ rest,
    Effect.trace (auth_callback conf self request).2
    = exchange_event conf self code :: rest.
Proof.
  intros Hd Hf He Hc. unfold auth_callback. rewrite Hd, Hf. cbn zeta. simpl.
  unfold finish_callback. rewrite (read_callback_code request code).
  - unfold Effect.bind at 1. simpl.
    destruct (exchange_code conf (set_redirect_uri uri self) code) as [t r] eqn:Hx.
    apply exchange_code_inv in Hx as [-> _].
    destruct r as [e|[tok ty]]; simpl; [by eexists|].
    destruct (Effect.bind _ _) as [t2 r2]. by eexists.
  - unfold Dict.mem. rewrite dict_get_of_items, He.
    apply bool_decide_eq_false. by intros [? ?].
  - by rewrite dict_get_of_items.
Qed.
End Facts.
End ADFSMore.

Module ADFSSetupFacts.
Import ADFS ADFSSetup AuthorizeFacts.

Section Facts.
Context `{ExternalAuth} (conf : Config) (s : Settings) (base_configure : App → App).

(** X9. [configure], then [authenticate]: the user is redirected to
    [https://<server>/<tenant>/oauth2/authorize/?...], on the Azure server
    and the configured tenant when a tenant is set, on the ADFS server and
    the tenant [adfs] otherwise; when a callback URL is configured, the
    redirect URI sent is that URL after ["{domain}"], formatted. *)
Theorem configure_then_authenticate inherited state0 keys_uri app self ends app'
    request self' resp :
  configure s base_configure inherited state0 keys_uri app = (self, ends, app') →
  authenticate conf self request = (self', inr resp) →
  ∃ q,
    redirect
      ("https://" +:+ server ends +:+ "/" +:+ tenant_id self
         +:+ "/oauth2/authorize/" +:+ "?" +:+ q) = inr resp
    ∧ Url.param "client_id" (Url.parse_qsl q) = Some (ADFS_CLIENT_ID conf)
    ∧ Url.param "redirect_uri" (Url.parse_qsl q) = Some (redirect_uri self')
    ∧ (server ends, tenant_id self)
      = match tenant_set s with
        | Some t => (AZURE_AD_SERVER s, t)
        | None => (ADFS_SERVER s, "adfs")
        end
    ∧ ∀ callback,
        ADFS_CALLBACK_REDIRECT_URL s = Some callback →
        ∃ domain_url,
          get_domain request = inr domain_url
          ∧ str_format ("{domain}" +:+ callback) domain_url _service_name
            = inr (redirect_uri self').
Proof.
  intros Hc (domain_url & uri & Hd & Hf & -> & Hr)%authenticate_redirect_inv.
  unfold configure in Hc.
  exists (Url.urlencode
            (query_params conf uri (Base64.urlsafe_b64encode uri))).
  rewrite UrlFacts.parse_qsl_urlencode.
  unfold login_url in Hr.
  destruct (tenant_set s) as [t|]; cbv beta iota zeta in Hc;
    injection Hc as <- <- <-;
    cbn [server tenant_id authorize_uri redirect_uri set_state set_redirect_uri]
      in Hr, Hf |- *;
    repeat (progress (simpl in Hr; rewrite ?PyFacts.app_assoc in Hr));
    (split; [exact Hr|]); repeat split; try done;
    intros callback Hcb; rewrite Hcb in Hf; by exists domain_url.
Qed.

(** X10. After [configure], [logout] redirects to the sign-out page
    under the same [https://<server>/<tenant>] as the authorize, token and
    userinfo endpoints and the issuer, whatever the request; [base_uri]
    alone is written with [https:://]. A tenant id that is [None] or empty
    selects the ADFS server, the tenant [adfs] and its discovery
    document. *)
Theorem configure_then_logout inherited state0 keys_uri app self ends app' request :
  configure s base_configure inherited state0 keys_uri app = (self, ends, app') →
  ∃ root,
    root = "https://" +:+ server ends +:+ "/" +:+ tenant_id self
    ∧ logout ends request = HTTPFound (root +:+ "/ls/?wa=wsignout1.0")
    ∧ authorize_uri self = root +:+ "/oauth2/authorize/"
    ∧ _token_uri self = root +:+ "/oauth2/token"
    ∧ userinfo_uri self = root +:+ "/userinfo"
    ∧ _issuer ends = root +:+ "/services/trust"
    ∧ base_uri ends = "https:://" +:+ server ends +:+ "/"
    ∧ (ADFS_TENANT_ID s = None ∨ ADFS_TENANT_ID s = Some "" →
       server ends = ADFS_SERVER s ∧ tenant_id self = "adfs"
       ∧ discovery_oid_uri self
         = "https://" +:+ ADFS_SERVER s
             +:+ "/adfs/.well-known/openid-configuration").
Proof.
  unfold configure, tenant_set. intros Hc. eexists. split; [reflexivity|].
  destruct (ADFS_TENANT_ID s) as [[|c t]|]; simpl in Hc;
    injection Hc as <- <- <-; simpl; do 6 (split; [done|]);
    intros [?|?]; done.
Qed.

(** X11. [configure] hands the base class an application with two more
    routes, the login under GET and the callback under any method, and
    with the redirect URI, still unformatted, appended to the excluded
    URIs. With a callback URL configured the redirect URI is ["{domain}"]
    followed by the path of the callback route; without one the route is
    [/auth/adfs/callback] and the redirect URI is the inherited one. *)
Theorem configure_routes inherited state0 keys_uri app self ends app' :
  configure s base_configure inherited state0 keys_uri app = (self, ends, app') →
  ∃ registered login callback,
    app' = base_configure registered
    ∧ routes registered
      = routes app
        ++ [ {| route_method := "GET"; route_path := login;
                route_handler := Authenticate; route_name := "adfs_login" |};
             {| route_method := "*"; route_path := callback;
                route_handler := AuthCallback;
                route_name := "adfs_callback_login" |} ]
    ∧ exclude_list registered = exclude_list app ++ [redirect_uri self]
    ∧ login = default "/api/v1/auth/adfs" (ADFS_LOGIN_REDIRECT_URL s)
    ∧ match ADFS_CALLBACK_REDIRECT_URL s with
      | Some path => callback = path ∧ redirect_uri self = "{domain}" +:+ path
      | None => callback = "/auth/adfs/callback" ∧ redirect_uri self = inherited
      end.
Proof.
  unfold configure. intros Hc.
  destruct (tenant_set s) as [t|]; injection Hc as <- <- <-; simpl;
    eexists _, _, _; (split; [reflexivity|]);
    (split; [reflexivity|]); (split; [reflexivity|]);
    (split; [reflexivity|]); by destruct (ADFS_CALLBACK_REDIRECT_URL s).
Qed.
End Facts.
End ADFSSetupFacts.

Module TokenMore.
Import Py Token TokenViews PyFacts SplitFacts TokenFacts TokenParse.

(** Membership in an explicit trace, case by case. *)
Ltac token_trace_cases H :=
  repeat first
    [ apply elem_of_nil in H; destruct H
    | apply elem_of_app in H as [H|H]
    | apply elem_of_cons in H as [H|H]; [try discriminate H|] ].

Section Facts.
Context `{Collaborators} (self : TokenAuth).

Lemma carries_no_token_payload request :
  carries_no_token self request →
  ∃ tenant, get_payload self request = Some (tenant, None)
            ∨ get_payload self request = Some (tenant, Some "").
Proof.
  intros [Hnone|(header & tenant & Hh & Hs & Hsch & Hten)].
  - exists None. left. unfold get_payload. by rewrite Hnone.
  - exists (Some tenant). right. unfold get_payload. rewrite Hh.
    rewrite (parse_authorization_split self header (tenant +:+ String ":" ""));
      [|done..].
    by rewrite split_one_sep.
Qed.

Lemma middleware_unflagged request :
  items request !! "authenticated" ≠ Some (VBool true) →
  middleware self request = intercept self (set_user None request).
Proof.
  intros Hflag. unfold middleware. simpl. by rewrite bool_decide_eq_false_2.
Qed.

(** X12. A request that is not flagged and brings no token, for want of
    an Authorization header or because its credential ends at the colon,
    goes to the handler without any verification. *)
Theorem request_without_token_passes_through request :
  items request !! "authenticated" ≠ Some (VBool true) →
  carries_no_token self request →
  middleware self request
  = ([EvHandler (set_user None request)], handler (set_user None request)).
Proof.
  intros Hflag [tenant Hp]%carries_no_token_payload.
  rewrite middleware_unflagged by done. unfold intercept.
  change (get_payload self (set_user None request))
    with (get_payload self request).
  by destruct Hp as [-> | ->].
Qed.

(** X13. [authenticate] answers a request that brings no token with
    [InvalidAuth("Invalid Credentials", 401)], before any decoding or
    lookup. *)
Theorem authenticate_without_token request :
  carries_no_token self request →
  authenticate self request = ([], inl (InvalidAuth "Invalid Credentials" 401)).
Proof.
  intros [tenant Hp]%carries_no_token_payload. unfold authenticate.
  by destruct Hp as [-> | ->].
Qed.


Lemma lookup_fails_set_user request tenant payload u :
  lookup_fails request tenant payload →
  lookup_fails (set_user u request) tenant payload.
Proof.
  intros [Hn|Hp|err Hdb|err Hdb|rows Hdb Hnone].
  - by apply no_name.
  - by apply no_partner.
  - by apply (query_raises _ _ _ err).
  - by apply (query_error _ _ _ err).
  - by apply (no_record _ _ _ rows).
Qed.

Lemma check_token_info_trace request tenant payload ev :
  ev ∈ Effect.trace (check_token_info request tenant payload) →
  ∃ n p, ev = EvQuery n p tenant.
Proof.
  unfold check_token_info.
  destruct (payload !! "name") as [n|]; [|by intros ?%elem_of_nil].
  destruct (payload !! "partner") as [p|]; [|by intros ?%elem_of_nil].
  unfold Effect.try, Effect.bind, Effect.call, Effect.ret.
  destruct (queryrow _ _ _ _) as [e|[[row|] [err|]]]; simpl;
    intros Hin; token_trace_cases Hin; eauto.
Qed.

(** X15. In the middleware a key lookup that comes back empty-handed is
    answered [HTTPClientError], not [HTTPForbidden]: the
    [HTTPForbidden("API Key Not Authorized")] is raised inside the [try]
    and caught by its last clause. Nothing but the query was called. *)
Theorem middleware_lookup_failure request tenant c token payload :
  items request !! "authenticated" ≠ Some (VBool true) →
  get_payload self request = Some (tenant, Some (String c token)) →
  jwt_decode (String c token) = inr payload →
  lookup_fails request tenant payload →
  ∃ tr,
    middleware self request
    = (tr, inl (HTTPClientError
                  "Error on TokenAuth Middleware: API Key Not Authorized"))
    ∧ ∀ ev, ev ∈ tr → ∃ n p, ev = EvQuery n p tenant.
Proof.
  intros Hflag Hp Hj Hl. rewrite middleware_unflagged by done. unfold intercept.
  change (get_payload self (set_user None request))
    with (get_payload self request).
  rewrite Hp. unfold verify, Effect.bind at 2, Effect.lift. rewrite Hj.
  pose proof (check_token_info_false _ _ _
                (lookup_fails_set_user _ _ _ None Hl)) as Hc.
  pose proof (check_token_info_trace (set_user None request) tenant payload) as Ht.
  destruct (check_token_info (set_user None request) tenant payload) as [tc rc].
  simpl in Hc, Ht. subst rc. simpl. exists ((tc ++ []) ++ []). split; [done|].
  intros ev Hev. rewrite !List.app_nil_r in Hev. by apply Ht.
Qed.

(** X16. The middleware when the token verifies: one query, the session,
    its three entries, then the handler, whose answer is the result. The
    handler gets the request with the name of the payload under the
    session key, the flag [authenticated] set, and the user of the session
    marked authenticated, or no user when the session has none. *)
Theorem middleware_success request tenant c token payload rows n p r session u k :
  items request !! "authenticated" ≠ Some (VBool true) →
  get_payload self request = Some (Some tenant, Some (String c token)) →
  jwt_decode (String c token) = inr payload →
  payload !! "name" = Some (VStr n) →
  payload !! "partner" = Some (VStr p) →
  authdb request = Table rows →
  List.find (sql_where n p tenant) rows = Some r →
  get_session (set_item (session_key_property self) (VStr n)
                 (set_user None request)) payload = inr session →
  decode_user session
  = match u with Some found => inr (Some found) | None => inl (KeyError k) end →
  middleware self request
  = ([ EvQuery (VStr n) (VStr p) (Some tenant);
       EvGetSession (set_item (session_key_property self) (VStr n)
                       (set_user None request));
       EvSessionSet "grants" (VList (pk_grants r));
       EvSessionSet "partner" (VStr (pk_partner r));
       EvSessionSet "tenant" (VStr tenant);
       EvHandler (verified_request self request (VStr n) u) ],
     handler (verified_request self request (VStr n) u)).
Proof.
  intros Hflag Hp Hj Hn Hpa Hdb Hf Hs Hu.
  rewrite middleware_unflagged by done. unfold intercept.
  change (get_payload self (set_user None request))
    with (get_payload self request).
  rewrite Hp. unfold verify.
  unfold Effect.try, Effect.bind, Effect.lift, Effect.call, Effect.ret.
  rewrite Hj. unfold check_token_info. rewrite Hn, Hpa.
  unfold Effect.try, Effect.bind, Effect.lift, Effect.call, Effect.ret.
  simpl. rewrite Hdb. simpl. rewrite Hf. simpl. rewrite Hs. simpl.
  rewrite Hu. by destruct u.
Qed.

Lemma reject_is_http e : is_http (reject e) = true.
Proof. destruct e as [| | | |[]| | |]; done. Qed.



(** X18. On a flagged request whose handler raises [KeyError], the
    middleware swallows it and goes on as for any request: with no
    Authorization header the handler is called a second time, with the
    same request. *)
Theorem flagged_handler_key_error_runs_twice request k :
  items request !! "authenticated" = Some (VBool true) →
  headers request !! "Authorization" = None →
  handler (set_user None request) = inl (KeyError k) →
  middleware self request
  = ([EvHandler (set_user None request); EvHandler (set_user None request)],
     inl (KeyError k)).
Proof.
  intros Hflag Hh Hk. unfold middleware. simpl.
  rewrite bool_decide_eq_true_2 by done.
  unfold Effect.try, Effect.call. rewrite Hk.
  unfold intercept, get_payload. simpl. rewrite Hh. simpl.
  unfold Effect.call. by rewrite Hk.
Qed.

Lemma check_token_info_no_tenant request payload :
  Effect.result (check_token_info request None payload) = inr None.
Proof.
  unfold check_token_info.
  destruct (payload !! "name") as [n|]; [|done].
  destruct (payload !! "partner") as [p|]; [|done].
  unfold Effect.try, Effect.bind, Effect.call, queryrow.
  destruct (authdb request) as [err|err|rows]; [done..|].
  by destruct n, p.
Qed.

Lemma tenantless_payload request header cred :
  headers request !! "Authorization" = Some header →
  Py.strip header = scheme self +:+ " " +:+ cred →
  Py.contains " " (scheme self) = false →
  count ":" cred ≠ 1 →
  get_payload self request = Some (None, Some cred).
Proof.
  intros Hh Hs Hsch Hc. unfold get_payload. rewrite Hh.
  rewrite (parse_authorization_split _ _ _ Hs Hsch).
  pose proof (split_length ":" cred) as Hl.
  destruct (Py.split ":" cred) as [|a [|b [|]]]; try done.
  simpl in Hl. lia.
Qed.

(** X19. A credential that is not exactly [tenant:token] leaves the
    tenant undetermined, and the query compares [NULL] with the programs:
    [authenticate] always raises, and the middleware, for a non-empty
    credential, always answers with an HTTP rejection. *)
Theorem tenantless_credential_is_rejected request header cred :
  headers request !! "Authorization" = Some header →
  Py.strip header = scheme self +:+ " " +:+ cred →
  Py.contains " " (scheme self) = false →
  count ":" cred ≠ 1 →
  (∃ e, Effect.result (authenticate self request) = inl e)
  ∧ (items request !! "authenticated" ≠ Some (VBool true) → cred ≠ "" →
     ∃ e, Effect.result (middleware self request) = inl e ∧ is_http e = true).
Proof.
  intros Hh Hs Hsch Hc.
  pose proof (tenantless_payload _ _ _ Hh Hs Hsch Hc) as Hp. split.
  - unfold authenticate. rewrite Hp. destruct cred as [|c cred]; [by eexists|].
    unfold Effect.bind, Effect.lift.
    destruct (jwt_decode _) as [e|payload]; [by eexists|].
    pose proof (check_token_info_no_tenant request payload) as Hn.
    destruct (check_token_info request None payload) as [tc rc].
    simpl in Hn. subst rc. by eexists.
  - intros Hflag Hne. rewrite middleware_unflagged by done. unfold intercept.
    change (get_payload self (set_user None request))
      with (get_payload self request).
    rewrite Hp. destruct cred as [|c cred]; [done|].
    unfold verify, Effect.try, Effect.bind, Effect.lift.
    destruct (jwt_decode _) as [e|payload].
    { eexists. split; [done|]. apply reject_is_http. }
    pose proof (check_token_info_no_tenant (set_user None request) payload) as Hn.
    destruct (check_token_info (set_user None request) None payload) as [tc rc].
    simpl in Hn. subst rc. by eexists.
Qed.

(** X20. [authenticate] does not catch what [jwt.decode] raises: the
    exception escapes as it is, before any lookup. *)
Theorem authenticate_lets_jwt_errors_escape request tenant c token e :
  get_payload self request = Some (tenant, Some (String c token)) →
  jwt_decode (String c token) = inl e →
  authenticate self request = ([], inl e).
Proof.
  intros Hp Hj. unfold authenticate. rewrite Hp.
  unfold Effect.bind, Effect.lift. by rewrite Hj.
Qed.

(** X21. [authenticate] when every step succeeds: one query, and the
    dict of the identity built from the first matching record, with the
    composite credential of the tenant and the new token under
    [token]. *)
Theorem authenticate_success request tenant c token payload rows n p r usr
    new_token :
  get_payload self request = Some (Some tenant, Some (String c token)) →
  jwt_decode (String c token) = inr payload →
  payload !! "name" = Some (VStr n) →
  payload !! "partner" = Some (VStr p) →
  authdb request = Table rows →
  List.find (sql_where n p tenant) rows = Some r →
  create_user (user_data self (select r)) = inr usr →
  create_jwt (user_dict self (select r) (Some tenant)) = inr new_token →
  remember request (pk_name r) (user_data self (select r))
    (fill_user self
       (fill_user self usr (pk_name r) (pk_programs r) (Some tenant) None)
       (pk_name r) (pk_programs r) (Some tenant) (Some new_token)) = inr () →
  authenticate self request
  = ([EvQuery (VStr n) (VStr p) (Some tenant)],
     inr (Authenticated
            (<["token" := VStr (tenant +:+ ":" +:+ new_token)]>
               (user_dict self (select r) (Some tenant))))).
Proof.
  intros Hp Hj Hn Hpa Hdb Hf Hu Ht Hr. unfold authenticate. rewrite Hp.
  unfold Effect.try, Effect.bind, Effect.lift, Effect.call, Effect.ret.
  rewrite Hj. unfold check_token_info. rewrite Hn, Hpa.
  unfold Effect.try, Effect.bind, Effect.lift, Effect.call, Effect.ret.
  simpl. rewrite Hdb. simpl. rewrite Hf. simpl.
  unfold build_identity, Effect.try, Effect.bind, Effect.lift, Effect.ret.
  simpl. rewrite Hu. simpl. rewrite Ht. simpl. rewrite Hr. done.
Qed.


(** X23. What [get_payload] returns recomposes the header: with a tenant,
    the stripped header is the scheme, a space, the tenant, a colon and
    the token, neither holding a colon; without one, it is the scheme, a
    space and the token, which then does not hold exactly one colon. *)
Theorem get_payload_recomposes request tenant token :
  get_payload self request = Some (tenant, Some token) →
  ∃ header,
    headers request !! "Authorization" = Some header
    ∧ Py.contains " " (scheme self) = false
    ∧ match tenant with
      | Some t =>
          Py.strip header = scheme self +:+ " " +:+ t +:+ ":" +:+ token
          ∧ Py.contains ":" t = false ∧ Py.contains ":" token = false
      | None =>
          Py.strip header = scheme self +:+ " " +:+ token
          ∧ count ":" token ≠ 1
      end.
Proof.
  unfold get_payload.
  destruct (headers request !! "Authorization") as [header|]; [|done].
  unfold parse_authorization. intros Hp. exists header. split; [done|].
  destruct (Py.split1 " " (Py.strip header)) as [|sch [|id [|]]] eqn:Hs1;
    try done.
  simpl in Hp. case_bool_decide as Hsch; [done|]. subst sch.
  apply split1_two in Hs1 as [Hstrip Hnsp]. split; [done|].
  destruct (Py.split ":" id) as [|a [|b [|]]] eqn:Hs2; simpl in Hp;
    injection Hp as <- <-.
  - by destruct (split_nonempty ":" id).
  - split; [done|]. pose proof (split_length ":" id) as Hl.
    rewrite Hs2 in Hl. simpl in Hl. lia.
  - apply split_two in Hs2 as (-> & Ha & Hb). by rewrite Hstrip.
  - split; [done|]. pose proof (split_length ":" id) as Hl.
    rewrite Hs2 in Hl. simpl in Hl. lia.
Qed.

(** X24. For a scheme without a space, [get_payload] returns [None]
    exactly when an Authorization header is present that, once stripped,
    is not the scheme, a space and a credential. *)
Theorem get_payload_none_iff request :
  Py.contains " " (scheme self) = false →
  get_payload self request = None
  ↔ ∃ header,
      headers request !! "Authorization" = Some header
      ∧ ∀ cred, Py.strip header ≠ scheme self +:+ " " +:+ cred.
Proof.
  intros Hsch. unfold get_payload. split.
  - destruct (headers request !! "Authorization") as [header|]; [|done].
    intros Hp. exists header. split; [done|]. intros cred Hs.
    by rewrite (parse_authorization_split _ _ _ Hs Hsch) in Hp.
  - intros (header & -> & Hno). unfold parse_authorization.
    destruct (Py.split1 " " (Py.strip header)) as [|sch [|id [|]]] eqn:Hs1;
      try done.
    simpl. case_bool_decide as Hs; [done|]. subst sch.
    apply split1_two in Hs1 as [Hstrip _]. by destruct (Hno id).
Qed.
End Facts.
End TokenMore.

Module ADFSMoreExamples.
Import ADFS ADFSSetup ADFSSample ADFSCases ADFSExamples ADFSMore ADFSSetupFacts.

Lemma login_query_reads_back_witness :
  ∃ q,
    redirect (ExternalAuth:=rejecting) (authorize_uri backend +:+ "?" +:+ q)
    = inr (HTTPFound sample_url)
    ∧ Url.parse_qsl q
      = [ ("client_id", "client-1"); ("response_type", "code");
          ("redirect_uri", "https://app.example.com/auth/adfs/callback");
          ("resource", "urn:navigator:api"); ("response_mode", "query");
          ("state", "aHR0cHM6Ly9hcHAuZXhhbXBsZS5jb20vYXV0aC9hZGZzL2NhbGxiYWNr");
          ("scope", "['openid']") ]
    ∧ state logged_in
      = Some "aHR0cHM6Ly9hcHAuZXhhbXBsZS5jb20vYXV0aC9hZGZzL2NhbGxiYWNr".
Proof.
  pose proof (login_query_reads_back (H:=rejecting) conf backend login logged_in
                (HTTPFound sample_url) eq_refl) as W.
  destruct W as (q & W1 & W2 & W3). exists q.
  split; [exact W1|]. split; [|exact W3].
  etrans; [exact W2|]. vm_compute. reflexivity.
Defined.

Lemma authenticate_failures_witness :
  authenticate (H:=stuck) conf backend login
  = (logged_in,
     inl (AuthException
            "Client doesn't have info for ADFS Authentication: no route"))
  ∧ ((get_domain (ExternalAuth:=stuck) login
      = inl (AuthException
               "Client doesn't have info for ADFS Authentication: no route")
      ∧ logged_in = backend)
     ∨ (∃ domain_url,
          get_domain (ExternalAuth:=stuck) login = inr domain_url
          ∧ str_format (ExternalAuth:=stuck) (redirect_uri backend) domain_url
              _service_name
            = inl (AuthException
                     "Client doesn't have info for ADFS Authentication: no route")
          ∧ logged_in = backend)
     ∨ (∃ domain_url uri,
          get_domain (ExternalAuth:=stuck) login = inr domain_url
          ∧ str_format (ExternalAuth:=stuck) (redirect_uri backend) domain_url
              _service_name = inr uri
          ∧ get_finish_redirect_url (ExternalAuth:=stuck) login
            = inl (AuthException
                     "Client doesn't have info for ADFS Authentication: no route")
          ∧ logged_in = set_redirect_uri uri backend)
     ∨ (∃ domain_url uri err,
          get_domain (ExternalAuth:=stuck) login = inr domain_url
          ∧ str_format (ExternalAuth:=stuck) (redirect_uri backend) domain_url
              _service_name = inr uri
          ∧ get_finish_redirect_url (ExternalAuth:=stuck) login = inr ()
          ∧ redirect (ExternalAuth:=stuck)
              (login_url conf logged_in (Base64.urlsafe_b64encode uri)) = inl err
          ∧ AuthException
              "Client doesn't have info for ADFS Authentication: no route"
            = AuthException
                ("Client doesn't have info for ADFS Authentication: " +:+ str err)
          ∧ logged_in = set_state (Base64.urlsafe_b64encode uri)
                          (set_redirect_uri uri backend))).
Proof.
  split; [vm_compute; reflexivity|].
  apply (authenticate_failures (H:=stuck) conf backend login).
  vm_compute. reflexivity.
Defined.


Lemma callback_without_code_is_invalid_witness :
  auth_callback (H:=rejecting) conf backend login
  = (set_redirect_uri "https://app.example.com/auth/adfs/callback" backend,
     ([], inl (HTTPForbidden "ADFS: Invalid Callback response: 'code': {}"))).
Proof.
  etrans.
  - apply (callback_without_code_is_invalid (H:=rejecting) conf backend login
             "https://app.example.com"
             "https://app.example.com/auth/adfs/callback");
      reflexivity.
  - vm_compute. reflexivity.
Defined.

Lemma identity_only_from_verified_token_witness :
  ∃ code exchange key claims,
    Dict.get "code" (Dict.of_items (query returned)) = Some code
    ∧ Dict.mem "error" (Dict.of_items (query returned)) = false
    ∧ post (ExternalAuth:=granting) (_token_uri backend) (token_params conf code)
        token_headers = inr exchange
    ∧ exchange !! "error" = None
    ∧ exchange !! "access_token" = Some "eyJ.access.sig"
    ∧ get_public_key (ExternalAuth:=granting) "eyJ.access.sig" (tenant_id backend)
        (discovery_oid_uri backend) = inr key
    ∧ jwt_decode (ExternalAuth:=granting) "eyJ.access.sig" key
        (ADFS_DEFAULT_RESOURCE conf) (ADFS_ISSUER conf) = inr claims.
Proof.
  apply (identity_only_from_verified_token (H:=granting) conf backend returned).
  assert (Effect.trace (auth_callback (H:=granting) conf backend returned).2
          = [ exchange_event conf backend "abc"; EvGetPublicKey "eyJ.access.sig";
              EvJwtDecode "eyJ.access.sig";
              EvUserInfo (userinfo_uri backend) "eyJ.access.sig";
              EvBuildUserInfo "eyJ.access.sig";
              EvValidateUserInfo "alice@example.com" ]) as ->
    by (vm_compute; reflexivity).
  repeat (apply elem_of_cons; first [by left | right]).
Defined.

Lemma callback_success_witness :
  auth_callback (H:=granting) conf backend returned
  = (set_redirect_uri "https://app.example.com/auth/adfs/callback" backend,
     ([ exchange_event conf backend "abc"; EvGetPublicKey "eyJ.access.sig";
        EvJwtDecode "eyJ.access.sig";
        EvUserInfo (userinfo_uri backend) "eyJ.access.sig";
        EvBuildUserInfo "eyJ.access.sig";
        EvValidateUserInfo "alice@example.com" ],
      inr (HomeRedirect (Some "session-alice@example.com") "Bearer"))).
Proof.
  etrans.
  - apply (callback_success (H:=granting) conf backend returned
             "https://app.example.com"
             "https://app.example.com/auth/adfs/callback" "abc"
             {[ "access_token" := "eyJ.access.sig"; "token_type" := "bearer" ]}
             "eyJ.access.sig" "bearer" "key" {[ "upn" := "alice@example.com" ]}
             {[ "upn" := "alice@example.com" ]} "alice@example.com"
             (Some (<["token" := "session-alice@example.com"]>
                      {[ "upn" := "alice@example.com" ]})));
      vm_compute; reflexivity.
  - vm_compute. reflexivity.
Defined.

Lemma exchange_without_token_is_rejected_witness :
  ∃ missing,
    (missing = "access_token" ∨ missing = "token_type")
    ∧ ({[ "access_token" := "eyJ.access.sig" ]} : gmap string string) !! missing
      = None
    ∧ auth_callback (H:=untyped) conf backend returned
      = (set_redirect_uri "https://app.example.com/auth/adfs/callback" backend,
         ([exchange_event conf backend "abc"],
          inl (HTTPForbidden
                 ("Invalid Response from Token Server '" +:+ missing +:+ "'.")))).
Proof.
  apply (exchange_without_token_is_rejected (H:=untyped) conf backend returned
           "https://app.example.com"
           "https://app.example.com/auth/adfs/callback" "abc"
           {[ "access_token" := "eyJ.access.sig" ]});
    try (vm_compute; reflexivity).
  right. vm_compute. reflexivity.
Defined.

Example exchange_without_token_type :
  (auth_callback (H:=untyped) conf backend returned).2
  = ([exchange_event conf backend "abc"],
     inl (HTTPForbidden "Invalid Response from Token Server 'token_type'.")).
Proof. vm_compute. reflexivity. Qed.

Lemma last_code_is_exchanged_witness :
  ∃ rest,
    Effect.trace (auth_callback (H:=granting) conf backend twice).2
    = exchange_event conf backend "second" :: rest.
Proof.
  apply (last_code_is_exchanged (H:=granting) conf backend twice
           "https://app.example.com"
           "https://app.example.com/auth/adfs/callback" "second");
    vm_compute; reflexivity.
Defined.
End ADFSMoreExamples.

Module ADFSSetupExamples.
Import ADFS ADFSSetup ADFSSample ADFSCases ADFSExamples ADFSSetupFacts.

Example configured_backend : configured.1.1 = backend.
Proof. vm_compute. reflexivity. Qed.

Lemma configure_then_authenticate_witness :
  ∃ q,
    redirect (ExternalAuth:=rejecting)
      ("https://" +:+ server configured.1.2 +:+ "/" +:+ tenant_id configured.1.1
         +:+ "/oauth2/authorize/" +:+ "?" +:+ q) = inr (HTTPFound sample_url)
    ∧ Url.param "client_id" (Url.parse_qsl q) = Some (ADFS_CLIENT_ID conf)
    ∧ Url.param "redirect_uri" (Url.parse_qsl q) = Some (redirect_uri logged_in)
    ∧ (server configured.1.2, tenant_id configured.1.1)
      = match tenant_set settings with
        | Some t => (AZURE_AD_SERVER settings, t)
        | None => (ADFS_SERVER settings, "adfs")
        end
    ∧ ∀ callback,
        ADFS_CALLBACK_REDIRECT_URL settings = Some callback →
        ∃ domain_url,
          get_domain (ExternalAuth:=rejecting) login = inr domain_url
          ∧ str_format (ExternalAuth:=rejecting) ("{domain}" +:+ callback)
              domain_url _service_name = inr (redirect_uri logged_in).
Proof.
  apply (configure_then_authenticate (H:=rejecting) conf settings id
           "{domain}/auth/{service}/callback/" None None empty_app
           configured.1.1 configured.1.2 configured.2 login logged_in
           (HTTPFound sample_url)).
  - reflexivity.
  - vm_compute. reflexivity.
Defined.

Lemma configure_then_logout_witness :
  ∃ root,
    root = "https://" +:+ server configured.1.2 +:+ "/"
             +:+ tenant_id configured.1.1
    ∧ logout configured.1.2 login = HTTPFound (root +:+ "/ls/?wa=wsignout1.0")
    ∧ authorize_uri configured.1.1 = root +:+ "/oauth2/authorize/"
    ∧ _token_uri configured.1.1 = root +:+ "/oauth2/token"
    ∧ userinfo_uri configured.1.1 = root +:+ "/userinfo"
    ∧ _issuer configured.1.2 = root +:+ "/services/trust"
    ∧ base_uri configured.1.2 = "https:://" +:+ server configured.1.2 +:+ "/"
    ∧ (ADFS_TENANT_ID settings = None ∨ ADFS_TENANT_ID settings = Some "" →
       server configured.1.2 = ADFS_SERVER settings
       ∧ tenant_id configured.1.1 = "adfs"
       ∧ discovery_oid_uri configured.1.1
         = "https://" +:+ ADFS_SERVER settings
             +:+ "/adfs/.well-known/openid-configuration").
Proof.
  apply (configure_then_logout settings id "{domain}/auth/{service}/callback/"
           None None empty_app configured.1.1 configured.1.2 configured.2 login).
  reflexivity.
Defined.

Example logout_sample :
  logout configured.1.2 login
  = HTTPFound "https://sts.example.com/adfs/ls/?wa=wsignout1.0".
Proof. vm_compute. reflexivity. Qed.

Lemma configure_routes_witness :
  ∃ registered login callback,
    configured.2 = id registered
    ∧ routes registered
      = routes empty_app
        ++ [ {| route_method := "GET"; route_path := login;
                route_handler := Authenticate; route_name := "adfs_login" |};
             {| route_method := "*"; route_path := callback;
                route_handler := AuthCallback;
                route_name := "adfs_callback_login" |} ]
    ∧ exclude_list registered
      = exclude_list empty_app ++ [redirect_uri configured.1.1]
    ∧ login = default "/api/v1/auth/adfs" (ADFS_LOGIN_REDIRECT_URL settings)
    ∧ match ADFS_CALLBACK_REDIRECT_URL settings with
      | Some path =>
          callback = path ∧ redirect_uri configured.1.1 = "{domain}" +:+ path
      | None =>
          callback = "/auth/adfs/callback"
          ∧ redirect_uri configured.1.1 = "{domain}/auth/{service}/callback/"
      end.
Proof.
  apply (configure_routes settings id "{domain}/auth/{service}/callback/"
           None None empty_app configured.1.1 configured.1.2 configured.2).
  reflexivity.
Defined.
End ADFSSetupExamples.

Module TokenMoreExamples.
Import Py Token TokenViews TokenSample TokenCases TokenMore.

Lemma request_without_token_passes_through_witness :
  middleware (H:=working) backend (with_header "Bearer acme:")
  = ([EvHandler (set_user None (with_header "Bearer acme:"))],
     inr (Resp 200 "ok")).
Proof.
  apply (request_without_token_passes_through (H:=working) backend
           (with_header "Bearer acme:")).
  - vm_compute. discriminate.
  - right. exists "Bearer acme:", "acme". repeat split; vm_compute; reflexivity.
Defined.

Example request_without_header_passes_through :
  middleware (H:=working) backend bare
  = ([EvHandler (set_user None bare)], inr (Resp 200 "ok")).
Proof. vm_compute. reflexivity. Qed.

Lemma authenticate_without_token_witness :
  authenticate (H:=working) backend bare
  = ([], inl (InvalidAuth "Invalid Credentials" 401)).
Proof.
  apply (authenticate_without_token (H:=working) backend bare).
  left. reflexivity.
Defined.


Lemma middleware_lookup_failure_witness :
  ∃ tr,
    middleware (H:=working) backend (with_header "Bearer other:eyJ.first.sig")
    = (tr, inl (HTTPClientError
                  "Error on TokenAuth Middleware: API Key Not Authorized"))
    ∧ ∀ ev, ev ∈ tr → ∃ n p, ev = EvQuery n p (Some "other").
Proof.
  apply (middleware_lookup_failure (H:=working) backend
           (with_header "Bearer other:eyJ.first.sig") (Some "other")
           "e" "yJ.first.sig" first_payload).
  - vm_compute. discriminate.
  - vm_compute. reflexivity.
  - reflexivity.
  - apply (no_record _ _ _ [key]); [reflexivity|].
    intros n p t Hn Hp [= <-].
    vm_compute in Hn, Hp. injection Hn as <-. injection Hp as <-.
    vm_compute. reflexivity.
Defined.

Lemma middleware_success_witness :
  middleware (H:=serving (inr (Resp 200 "ok"))) backend
    (with_header "Bearer acme:eyJ.first.sig")
  = ([ EvQuery (VStr "svc") (VStr "acme-corp") (Some "acme");
       EvGetSession (set_item "id" (VStr "svc")
                       (set_user None (with_header "Bearer acme:eyJ.first.sig")));
       EvSessionSet "grants" (VList ["read"]);
       EvSessionSet "partner" (VStr "acme-corp");
       EvSessionSet "tenant" (VStr "acme");
       EvHandler
         (verified_request backend (with_header "Bearer acme:eyJ.first.sig")
            (VStr "svc")
            (Some {| user_id := "svc"; username := "svc";
                     user_programs := ["acme"]; user_tenant := Some "acme";
                     access_token := None; is_authenticated := false;
                     userdata := ∅ |})) ],
     inr (Resp 200 "ok")).
Proof.
  apply (middleware_success (H:=serving (inr (Resp 200 "ok"))) backend
           (with_header "Bearer acme:eyJ.first.sig") "acme" "e" "yJ.first.sig"
           first_payload [key] "svc" "acme-corp" key
           {| decode_user :=
                inr (Some {| user_id := "svc"; username := "svc";
                             user_programs := ["acme"];
                             user_tenant := Some "acme"; access_token := None;
                             is_authenticated := false; userdata := ∅ |}) |}
           (Some {| user_id := "svc"; username := "svc";
                    user_programs := ["acme"]; user_tenant := Some "acme";
                    access_token := None; is_authenticated := false;
                    userdata := ∅ |}) "user").
  - vm_compute. discriminate.
  - vm_compute. reflexivity.
  - reflexivity.
  - reflexivity.
  - reflexivity.
  - reflexivity.
  - vm_compute. reflexivity.
  - reflexivity.
  - reflexivity.
Defined.


Lemma flagged_handler_key_error_runs_twice_witness :
  middleware (H:=serving (inl (KeyError "user"))) backend flagged_bare
  = ([EvHandler (set_user None flagged_bare);
      EvHandler (set_user None flagged_bare)],
     inl (KeyError "user")).
Proof.
  apply (flagged_handler_key_error_runs_twice
           (H:=serving (inl (KeyError "user"))) backend flagged_bare "user");
    reflexivity.
Defined.

Lemma tenantless_credential_is_rejected_witness :
  (∃ e,
     Effect.result
       (authenticate (H:=working) backend (with_header "Bearer eyJ.first.sig"))
     = inl e)
  ∧ (items (with_header "Bearer eyJ.first.sig") !! "authenticated"
     ≠ Some (VBool true) →
     "eyJ.first.sig" ≠ "" →
     ∃ e,
       Effect.result
         (middleware (H:=working) backend (with_header "Bearer eyJ.first.sig"))
       = inl e
       ∧ is_http e = true).
Proof.
  apply (tenantless_credential_is_rejected (H:=working) backend
           (with_header "Bearer eyJ.first.sig") "Bearer eyJ.first.sig"
           "eyJ.first.sig").
  - reflexivity.
  - vm_compute. reflexivity.
  - reflexivity.
  - vm_compute. discriminate.
Defined.

Lemma authenticate_lets_jwt_errors_escape_witness :
  authenticate (H:=working) backend (with_header "Bearer acme:garbage")
  = ([], inl (JwtError DecodeError "Not enough segments")).
Proof.
  apply (authenticate_lets_jwt_errors_escape (H:=working) backend
           (with_header "Bearer acme:garbage") (Some "acme") "g" "arbage").
  - vm_compute. reflexivity.
  - reflexivity.
Defined.

Lemma authenticate_success_witness :
  authenticate (H:=working) backend (with_header "Bearer acme:eyJ.first.sig")
  = ([EvQuery (VStr "svc") (VStr "acme-corp") (Some "acme")],
     inr (Authenticated
            (<["token" := VStr ("acme" +:+ ":" +:+ "eyJ.issued.sig")]>
               (user_dict backend (select key) (Some "acme"))))).
Proof.
  apply (authenticate_success (H:=working) backend
           (with_header "Bearer acme:eyJ.first.sig") "acme" "e" "yJ.first.sig"
           first_payload [key] "svc" "acme-corp" key
           (blank_user (user_data backend (select key))) "eyJ.issued.sig").
  - vm_compute. reflexivity.
  - reflexivity.
  - reflexivity.
  - reflexivity.
  - reflexivity.
  - vm_compute. reflexivity.
  - reflexivity.
  - vm_compute. reflexivity.
  - reflexivity.
Defined.

Lemma get_payload_recomposes_witness :
  ∃ header,
    headers (with_header "  Bearer acme:eyJ.first.sig ") !! "Authorization"
    = Some header
    ∧ Py.contains " " (scheme backend) = false
    ∧ Py.strip header
      = scheme backend +:+ " " +:+ "acme" +:+ ":" +:+ "eyJ.first.sig"
    ∧ Py.contains ":" "acme" = false
    ∧ Py.contains ":" "eyJ.first.sig" = false.
Proof.
  apply (get_payload_recomposes backend
           (with_header "  Bearer acme:eyJ.first.sig ") (Some "acme")
           "eyJ.first.sig").
  vm_compute. reflexivity.
Defined.

Lemma get_payload_none_iff_witness :
  get_payload backend (with_header "Basic dXNlcjpwdw==") = None
  ↔ ∃ header,
      headers (with_header "Basic dXNlcjpwdw==") !! "Authorization" = Some header
      ∧ ∀ cred, Py.strip header ≠ scheme backend +:+ " " +:+ cred.
Proof.
  apply (get_payload_none_iff backend (with_header "Basic dXNlcjpwdw==")).
  reflexivity.
Defined.
End TokenMoreExamples.
